(** * cryptoprice: a shallow embedding of [cryptoprice.py]

    The program downloads candlestick data from the Poloniex public API,
    turns the JSON answer into a pandas table sorted by time and writes it
    as CSV.  This file embeds the class [CryptoData] and the library calls
    it is made of, and proves the properties stated about it.

    Conventions.
    - Python exceptions are values of [exn]; a call that can raise returns
      [except A].  Methods that mutate [self] or touch the outside world are
      state transformers that keep the state when they raise, as Python
      does.
    - Python [int] is [Z].  A Python [float] is never computed on by the
      program, it is only handed through; it is known by the text Python's
      [repr] prints for it.
    - Python [str] is [string], read as UTF-8 bytes; [upper] and [repr] are
      modelled on the ASCII range.
    - Library behaviour that the program does not determine (the JSON
      reader, pandas on inputs that are not a list of records, the CSV
      text, the conversion of a float timestamp) is taken as a parameter in
      [Section Pipeline]. *)

From Stdlib Require Import ZArith Lia String Ascii List DecimalString.
From Stdlib Require Import Sorted Permutation.
From stdpp Require Import base option strings list gmap.

Open Scope Z_scope.

(** ** Exceptions *)

Inductive exn : Type :=
  | Exception (msg : string)      (* [raise Exception(msg)] in the source *)
  | KeyError (key : string)       (* a missing column *)
  | ValueError (msg : string)
  | TypeError (msg : string)
  | AttributeError (msg : string)
  | OSError (path : string)       (* the destination cannot be opened *)
  | ConnectionError (msg : string).

Inductive except (A : Type) : Type :=
  | Ok (a : A)
  | Raise (e : exn).
Arguments Ok {A} a.
Arguments Raise {A} e.

Definition except_bind {A B} (m : except A) (k : A -> except B) : except B :=
  match m with
  | Ok a => k a
  | Raise e => Raise e
  end.

Notation "'let*' x ':=' m 'in' k" := (except_bind m (fun x => k))
  (at level 10, x name, m at level 200, k at level 200, only parsing).

Definition is_ok {A} (m : except A) : bool :=
  match m with Ok _ => true | Raise _ => false end.

(** [str(n)] for a Python [int]. *)
Definition str_of_int (z : Z) : string :=
  NilEmpty.string_of_int (Z.to_int z).

(** ** Calendar arithmetic *)

Module Calendar.

Definition is_leap (y : Z) : bool :=
  (y mod 4 =? 0) && (negb (y mod 100 =? 0) || (y mod 400 =? 0)).

Definition days_in_month (y m : Z) : Z :=
  if m =? 2 then (if is_leap y then 29 else 28)
  else if (m =? 4) || (m =? 6) || (m =? 9) || (m =? 11) then 30
  else 31.

(** Days between 1970-01-01 and the proleptic Gregorian date [y-m-d]. *)
Definition days_from_civil (y m d : Z) : Z :=
  let y' := if m <=? 2 then y - 1 else y in
  let era := y' / 400 in
  let yoe := y' - era * 400 in
  let mp := if 2 <? m then m - 3 else m + 9 in
  let doy := (153 * mp + 2) / 5 + d - 1 in
  let doe := yoe * 365 + yoe / 4 - yoe / 100 + doy in
  era * 146097 + doe - 719468.

(** The date that lies [z] days after 1970-01-01. *)
Definition civil_from_days (z : Z) : Z * Z * Z :=
  let z' := z + 719468 in
  let era := z' / 146097 in
  let doe := z' - era * 146097 in
  let yoe := (doe - doe / 1460 + doe / 36524 - doe / 146096) / 365 in
  let doy := doe - (365 * yoe + yoe / 4 - yoe / 100) in
  let mp := (5 * doy + 2) / 153 in
  let d := doy - (153 * mp + 2) / 5 + 1 in
  let m := if mp <? 10 then mp + 3 else mp - 9 in
  let y := yoe + era * 400 in
  (if m <=? 2 then y + 1 else y, m, d).

End Calendar.

(** ** [datetime.datetime] and [time] *)

Record datetime : Type := mk_datetime {
  year : Z; month : Z; day : Z;
  hour : Z; minute : Z; second : Z; microsecond : Z
}.

(** Seconds since the epoch of a datetime read as UTC ([calendar.timegm]);
    [timetuple()] drops the microseconds before [time.mktime] sees them. *)
Definition timegm (d : datetime) : Z :=
  Calendar.days_from_civil (year d) (month d) (day d) * 86400
  + hour d * 3600 + minute d * 60 + second d.

(** The UTC calendar time [t] seconds after the epoch. *)
Definition utc_datetime (t : Z) : datetime :=
  let days := t / 86400 in
  let rest := t mod 86400 in
  let '(y, m, d) := Calendar.civil_from_days days in
  mk_datetime y m d (rest / 3600) (rest mod 3600 / 60) (rest mod 60) 0.

(** A [datetime] has a year between 1 and 9999. *)
Definition representable (t : Z) : bool :=
  (1 <=? year (utc_datetime t)) && (year (utc_datetime t) <=? 9999).

(** [datetime.datetime.utcfromtimestamp(t)] for an integer [t]. *)
Definition utcfromtimestamp (t : Z) : except datetime :=
  if representable t then Ok (utc_datetime t)
  else Raise (ValueError "year is out of range").

(** Datetimes compare field by field, most significant first. *)
Definition datetime_key (d : datetime) : list Z :=
  [year d; month d; day d; hour d; minute d; second d; microsecond d].

Fixpoint lex_leb (a b : list Z) : bool :=
  match a, b with
  | [], _ => true
  | _ :: _, [] => false
  | x :: a', y :: b' => (x <? y) || ((x =? y) && lex_leb a' b')
  end.

Definition datetime_leb (a b : datetime) : bool :=
  lex_leb (datetime_key a) (datetime_key b).

(** What the process sees of its machine: the local time zone, given as
    the UTC offset in seconds in force at a local wall-clock time (itself
    written as seconds since the epoch), and the clock. *)
Record machine : Type := {
  utcoffset : Z -> Z;
  clock : Z
}.

(** [time.mktime(d.timetuple())]: the struct is read as LOCAL time. *)
Definition mktime (mc : machine) (d : datetime) : Z :=
  timegm d - utcoffset mc (timegm d).

(** *** [datetime.datetime.strptime(s, '%Y-%m-%d')]

    The format compiles to the regular expression
    [(\d\d\d\d)-(1[0-2]|0[1-9]|[1-9])-(3[0-1]|[1-2]\d|0[1-9]|[1-9]| [1-9])];
    the match must consume the whole string and the fields must name a
    real date. *)

Definition digit_of (c : ascii) : option Z :=
  let n := Z.of_nat (nat_of_ascii c) in
  if (48 <=? n) && (n <=? 57) then Some (n - 48) else None.

Definition in_range (c : ascii) (lo hi : Z) : option Z :=
  match digit_of c with
  | Some n => if (lo <=? n) && (n <=? hi) then Some n else None
  | None => None
  end.

Definition year_field (s : list ascii) : option (Z * list ascii) :=
  match s with
  | a :: b :: c :: d :: rest =>
      match digit_of a, digit_of b, digit_of c, digit_of d with
      | Some a, Some b, Some c, Some d =>
          Some (a * 1000 + b * 100 + c * 10 + d, rest)
      | _, _, _, _ => None
      end
  | _ => None
  end.

(** One alternative made of two character classes, or of one. *)
Definition two_chars (s : list ascii) (p q : ascii -> option Z)
  : list (Z * list ascii) :=
  match s with
  | a :: b :: rest =>
      match p a, q b with
      | Some x, Some y => [(x * 10 + y, rest)]
      | _, _ => []
      end
  | _ => []
  end.

Definition one_char (s : list ascii) (p : ascii -> option Z)
  : list (Z * list ascii) :=
  match s with
  | a :: rest => match p a with Some x => [(x, rest)] | None => [] end
  | [] => []
  end.

Definition is_space (c : ascii) : option Z :=
  if Ascii.eqb c " "%char then Some 0 else None.

(** The alternatives of a field that match a prefix, in the order the
    regular expression tries them. *)
Definition month_field (s : list ascii) : list (Z * list ascii) :=
  two_chars s (fun c => in_range c 1 1) (fun c => in_range c 0 2)
  ++ two_chars s (fun c => in_range c 0 0) (fun c => in_range c 1 9)
  ++ one_char s (fun c => in_range c 1 9).

Definition day_field (s : list ascii) : list (Z * list ascii) :=
  two_chars s (fun c => in_range c 3 3) (fun c => in_range c 0 1)
  ++ two_chars s (fun c => in_range c 1 2) (fun c => in_range c 0 9)
  ++ two_chars s (fun c => in_range c 0 0) (fun c => in_range c 1 9)
  ++ one_char s (fun c => in_range c 1 9)
  ++ two_chars s is_space (fun c => in_range c 1 9).

Definition after_dash (s : list ascii) : option (list ascii) :=
  match s with
  | c :: rest => if Ascii.eqb c "-"%char then Some rest else None
  | [] => None
  end.

(** First match in backtracking order: year, month, day and what is left
    of the string. *)
Definition match_ymd (s : list ascii) : option (Z * Z * Z * list ascii) :=
  match year_field s with
  | Some (y, r0) =>
      match after_dash r0 with
      | Some r1 =>
          head (omap (fun '(m, r2) =>
                  match after_dash r2 with
                  | Some r3 =>
                      match day_field r3 with
                      | (d, r4) :: _ => Some (y, m, d, r4)
                      | [] => None
                      end
                  | None => None
                  end) (month_field r1))
      | None => None
      end
  | None => None
  end.

Definition strptime_ymd (date_string : string) : except datetime :=
  match match_ymd (list_ascii_of_string date_string) with
  | Some (y, m, d, []) =>
      if (1 <=? y) && (d <=? Calendar.days_in_month y m)
      then Ok (mk_datetime y m d 0 0 0 0)
      else Raise (ValueError "date out of range")
  | Some (_, _, _, _ :: _) => Raise (ValueError "unconverted data remains")
  | None => Raise (ValueError "time data does not match format")
  end.

(** ** Python values, as [json.loads] builds them *)

Set Warnings "-register-all".

(** A Python [float], known by the text [repr] prints for it. *)
Record pyfloat : Type := Float { float_repr : string }.

Inductive pyvalue : Type :=
  | PyNone
  | PyBool (b : bool)
  | PyInt (z : Z)
  | PyFloat (f : pyfloat)
  | PyStr (s : string)
  | PyList (l : list pyvalue)
  | PyDict (d : list (string * pyvalue)).   (* keys in insertion order *)

Definition pydict : Type := list (string * pyvalue).

(** [key in d.keys()] and [d[key]]. *)
Fixpoint dict_get (key : string) (d : pydict) : option pyvalue :=
  match d with
  | [] => None
  | (k, v) :: d' => if String.eqb k key then Some v else dict_get key d'
  end.

(** [a == s] where [s] is a [str]: only an equal [str] compares equal. *)
Definition eq_str (a : pyvalue) (s : string) : bool :=
  match a with
  | PyStr a' => String.eqb a' s
  | _ => false
  end.

(** *** [repr] and [str] *)

Definition chr (n : nat) : string := String (ascii_of_nat n) EmptyString.
Definition dquote : string := chr 34.
Definition squote : string := "'".
Definition newline : string := chr 10.

Fixpoint join (sep : string) (l : list string) : string :=
  match l with
  | [] => EmptyString
  | [x] => x
  | x :: l' => x +:+ sep +:+ join sep l'
  end.

Fixpoint contains_char (c : ascii) (s : string) : bool :=
  match s with
  | EmptyString => false
  | String c' s' => Ascii.eqb c c' || contains_char c s'
  end.

Definition hex_digit (n : nat) : string :=
  chr (if (n <? 10)%nat then 48 + n else 87 + n).

(** One character of a [str] inside quotes [q]. *)
Definition repr_char (q : ascii) (c : ascii) : string :=
  let n := nat_of_ascii c in
  if Ascii.eqb c "\"%char then "\\"
  else if Ascii.eqb c q then "\" +:+ String c EmptyString
  else if (n =? 9)%nat then "\t"
  else if (n =? 10)%nat then "\n"
  else if (n =? 13)%nat then "\r"
  else if (n <? 32)%nat || (n =? 127)%nat
       then "\x" +:+ hex_digit (n / 16) +:+ hex_digit (n mod 16)
  else String c EmptyString.

Fixpoint repr_chars (q : ascii) (s : string) : string :=
  match s with
  | EmptyString => EmptyString
  | String c s' => repr_char q c +:+ repr_chars q s'
  end.

(** [repr(s)]: single quotes, unless [s] has a single quote and no double
    quote. *)
Definition repr_str (s : string) : string :=
  let q := if contains_char "'"%char s
              && negb (contains_char (ascii_of_nat 34) s)
           then ascii_of_nat 34 else "'"%char in
  String q EmptyString +:+ repr_chars q s +:+ String q EmptyString.

Fixpoint py_repr (v : pyvalue) : string :=
  match v with
  | PyNone => "None"
  | PyBool true => "True"
  | PyBool false => "False"
  | PyInt z => str_of_int z
  | PyFloat f => float_repr f
  | PyStr s => repr_str s
  | PyList l => "[" +:+ join ", " (List.map py_repr l) +:+ "]"
  | PyDict d =>
      "{" +:+ join ", "
                (List.map (fun kv => repr_str (fst kv) +:+ ": " +:+ py_repr (snd kv)) d)
          +:+ "}"
  end.

(** [str(v)], which is what an f-string puts in place of [{v}]. *)
Definition py_str (v : pyvalue) : string :=
  match v with
  | PyStr s => s
  | _ => py_repr v
  end.

(** [s.upper()] on ASCII letters. *)
Definition upper_char (c : ascii) : ascii :=
  let n := nat_of_ascii c in
  if (97 <=? n)%nat && (n <=? 122)%nat then ascii_of_nat (n - 32) else c.

Fixpoint upper (s : string) : string :=
  match s with
  | EmptyString => EmptyString
  | String c s' => String (upper_char c) (upper s')
  end.

Definition AVAILABLE_CURRENCY_PAIRS : list string :=
  ["BTC_AMP"; "BTC_ARDR"; "BTC_BCH"; "BTC_BCN"; "BTC_BCY"; "BTC_BELA";
   "BTC_BLK"; "BTC_BTCD"; "BTC_BTM"; "BTC_BTS"; "BTC_BURST"; "BTC_CLAM";
   "BTC_CVC"; "BTC_DASH"; "BTC_DCR"; "BTC_DGB"; "BTC_DOGE"; "BTC_EMC2";
   "BTC_ETC"; "BTC_ETH"; "BTC_EXP"; "BTC_FCT"; "BTC_FLDC"; "BTC_FLO"; "BTC_GAME";
   "BTC_GAS"; "BTC_GNO"; "BTC_GNT"; "BTC_GRC"; "BTC_HUC"; "BTC_LBC"; "BTC_LSK";
   "BTC_LTC"; "BTC_MAID"; "BTC_NAV"; "BTC_NEOS"; "BTC_NMC"; "BTC_NXC"; "BTC_NXT";
   "BTC_OMG"; "BTC_OMNI"; "BTC_PASC"; "BTC_PINK"; "BTC_POT"; "BTC_PPC"; "BTC_RADS";
   "BTC_SC"; "BTC_STEEM"; "BTC_STORJ"; "BTC_STR"; "BTC_STRAT"; "BTC_SYS";
   "BTC_VIA"; "BTC_VRC"; "BTC_VTC"; "BTC_XBC"; "BTC_XCP"; "BTC_XEM"; "BTC_XMR";
   "BTC_XPM"; "BTC_XRP"; "BTC_XVC"; "BTC_ZEC"; "BTC_ZRX"; "ETH_BCH"; "ETH_CVC";
   "ETH_ETC"; "ETH_GAS"; "ETH_GNO"; "ETH_GNT"; "ETH_LSK"; "ETH_OMG"; "ETH_REP";
   "ETH_STEEM"; "ETH_ZEC"; "ETH_ZRX"; "USDT_BCH"; "USDT_BTC"; "USDT_DASH";
   "USDT_ETC"; "USDT_ETH"; "USDT_LTC"; "USDT_NXT"; "USDT_REP"; "USDT_STR";
   "USDT_XMR"; "USDT_XRP"; "USDT_ZEC"; "XMR_BCN"; "XMR_BLK"; "XMR_BTCD"; "XMR_DASH";
   "XMR_LTC"; "XMR_MAID"; "XMR_NXT"; "XMR_ZEC"; "BTC_REP"; "BTC_RIC"; "BTC_SBD"]%string.

(** ** A pandas table

    A table has named columns and labelled rows.  A cell holds the Python
    object that was put there, the missing-value marker or a timestamp.
    pandas' choice of a storage type per column is not modelled. *)

Inductive cell : Type :=
  | Obj (v : pyvalue)
  | NaN
  | Timestamp (d : datetime).

Record row : Type := mk_row { label : nat; cells : list cell }.

Record DataFrame : Type := mk_frame { columns : list string; rows : list row }.

Definition has_column (name : string) (cols : list string) : bool :=
  existsb (String.eqb name) cols.

Fixpoint column_index (name : string) (cols : list string) : option nat :=
  match cols with
  | [] => None
  | c :: cols' =>
      if String.eqb c name then Some 0%nat
      else option_map S (column_index name cols')
  end.

(** Column names of a list of records: the keys in order of first
    appearance. *)
Fixpoint add_keys (seen : list string) (keys : list string) : list string :=
  match keys with
  | [] => seen
  | k :: keys' =>
      add_keys (if has_column k seen then seen else seen ++ [k]) keys'
  end.

Definition record_columns (records : list pydict) : list string :=
  fold_left (fun seen r => add_keys seen (List.map fst r)) records [].

Definition record_cell (r : pydict) (name : string) : cell :=
  match dict_get name r with
  | Some v => Obj v
  | None => NaN
  end.

Fixpoint number_rows (i : nat) (cols : list string) (records : list pydict)
  : list row :=
  match records with
  | [] => []
  | r :: records' =>
      mk_row i (List.map (record_cell r) cols) :: number_rows (S i) cols records'
  end.

(** [pd.DataFrame(records)] for a list of dicts. *)
Definition frame_of_records (records : list pydict) : DataFrame :=
  let cols := record_columns records in
  mk_frame cols (number_rows 0 cols records).

(** [data[name]]. *)
Definition get_column (name : string) (df : DataFrame) : except (list cell) :=
  match column_index name (columns df) with
  | Some i => Ok (List.map (fun r => nth i (cells r) NaN) (rows df))
  | None => Raise (KeyError name)
  end.

Fixpoint replace_nth {A} (i : nat) (x : A) (l : list A) : list A :=
  match l, i with
  | [], _ => []
  | _ :: l', O => x :: l'
  | y :: l', S i' => y :: replace_nth i' x l'
  end.

(** [data[name] = values]: replaces the column when it exists, appends it
    otherwise. *)
Definition set_column (name : string) (values : list cell) (df : DataFrame)
  : DataFrame :=
  match column_index name (columns df) with
  | Some i =>
      mk_frame (columns df)
        (List.map (fun rv => mk_row (label (fst rv)) (replace_nth i (snd rv) (cells (fst rv))))
                  (combine (rows df) values))
  | None =>
      mk_frame (columns df ++ [name])
        (List.map (fun rv => mk_row (label (fst rv)) (cells (fst rv) ++ [snd rv]))
                  (combine (rows df) values))
  end.

(** Insertion sort; equal keys keep their order. *)
Fixpoint insert_by {A} (leb : A -> A -> bool) (x : A) (l : list A) : list A :=
  match l with
  | [] => [x]
  | y :: l' => if leb x y then x :: y :: l' else y :: insert_by leb x l'
  end.

Definition sort_by {A} (leb : A -> A -> bool) (l : list A) : list A :=
  fold_right (insert_by leb) [] l.

Fixpoint map_except {A B} (f : A -> except B) (l : list A) : except (list B) :=
  match l with
  | [] => Ok []
  | x :: l' =>
      let* y := f x in
      let* ys := map_except f l' in
      Ok (y :: ys)
  end.

Definition as_timestamp (c : cell) : except datetime :=
  match c with
  | Timestamp d => Ok d
  | _ => Raise (TypeError "not a datetime column")
  end.

(** [data.sort_values(name, inplace=True)] on a column of timestamps: the
    rows, labels included, in ascending order of that column.  pandas
    promises no order among rows with equal keys; here they keep the order
    they had. *)
Definition sort_values (name : string) (df : DataFrame) : except DataFrame :=
  let* col := get_column name df in
  let* keys := map_except as_timestamp col in
  Ok (mk_frame (columns df)
        (List.map snd
           (sort_by (fun a b => datetime_leb (fst a) (fst b))
                    (combine keys (rows df))))).

(** [data[cols]]: the named columns in the order asked for. *)
Definition select_columns (cols : list string) (df : DataFrame)
  : except DataFrame :=
  let* idx :=
    map_except (fun c => match column_index c (columns df) with
                         | Some i => Ok i
                         | None => Raise (KeyError c)
                         end) cols in
  Ok (mk_frame cols
        (List.map (fun r => mk_row (label r)
                              (List.map (fun i => nth i (cells r) NaN) idx))
                  (rows df))).

(** A parsed answer that is a list of dicts. *)
Fixpoint as_records (l : list pyvalue) : option (list pydict) :=
  match l with
  | [] => Some []
  | PyDict d :: l' => option_map (cons d) (as_records l')
  | _ :: _ => None
  end.

(** ** The class [CryptoData] *)

Record CryptoData : Type := mk_CryptoData {
  currency_pair : string;
  start_timestamp : Z;
  end_timestamp : Z;
  period : Z;
  api : string;
  destination : option string;
  data : option DataFrame;
  url : string
}.

Definition set_data (self : CryptoData) (d : option DataFrame) : CryptoData :=
  mk_CryptoData (currency_pair self) (start_timestamp self)
    (end_timestamp self) (period self) (api self) (destination self) d
    (url self).

(** [get_timestamp(self, date_string, date_format='%Y-%m-%d')] *)
Definition get_timestamp (mc : machine) (date_string : option string)
  : except Z :=
  match date_string with
  | None =>
      let* now := utcfromtimestamp (clock mc) in
      Ok (mktime mc now)
  | Some s =>
      let* d := strptime_ymd s in
      Ok (mktime mc d)
  end.

(** The arguments of [__init__]; [logger] is stored and never read, it is
    left out. *)
Record init_args : Type := mk_args {
  arg_currency_pair : string;
  arg_start_date : option string;
  arg_end_date : option string;
  arg_period : Z;
  arg_destination : option string;
  arg_api : string
}.

(** The defaults of the signature of [__init__]. *)
Definition default_args : init_args :=
  mk_args "USDT_BTC" (Some "2015-01-01"%string) None 14400 None
          "returnChartData".

(** [not end_date]: [None] and the empty string are falsy. *)
Definition falsy (s : option string) : bool :=
  match s with
  | None => true
  | Some EmptyString => true
  | Some _ => false
  end.

Definition build_url (api pair : string) (start_ts end_ts period : Z) : string :=
  "https://poloniex.com/public?command=" +:+ api +:+ "&currencyPair"
  +:+ "=" +:+ pair +:+ "&start=" +:+ str_of_int start_ts +:+ "&end="
  +:+ str_of_int end_ts +:+ "&period=" +:+ str_of_int period.

(** [CryptoData.__init__] *)
Definition __init__ (mc : machine) (a : init_args) : except CryptoData :=
  let currency_pair := upper (arg_currency_pair a) in
  let* start_timestamp := get_timestamp mc (arg_start_date a) in
  let* end_timestamp :=
    if falsy (arg_end_date a) then Ok 9999999999
    else get_timestamp mc (arg_end_date a) in
  let period := 300 in
  let api := arg_api a in
  Ok (mk_CryptoData currency_pair start_timestamp end_timestamp period api
        (arg_destination a) None
        (build_url api currency_pair start_timestamp end_timestamp period)).

(** ** State and effects

    A method that mutates [self] or the outside world is a [prog]: it maps
    a state to an outcome and the state it leaves, also when it raises. *)

Definition prog (S A : Type) : Type := S -> except A * S.

Definition pret {S A} (a : A) : prog S A := fun s => (Ok a, s).

Definition pbind {S A B} (m : prog S A) (k : A -> prog S B) : prog S B :=
  fun s =>
    match m s with
    | (Ok a, s') => k a s'
    | (Raise e, s') => (Raise e, s')
    end.

Notation "'do' x <- m ';' k" := (pbind m (fun x => k))
  (at level 10, x name, m at level 200, k at level 200, only parsing).

(** The world outside the process: the files, the HTTP server and the
    disk.  [net n u] is the answer to the [n]-th GET when it asks for [u],
    [disk n p] tells whether the [n]-th attempt to open [p] for writing
    succeeds; [requests] and [writes] count what has been done so far. *)
Record world : Type := mk_world {
  files : gmap string string;
  net : nat -> string -> except string;
  requests : nat;
  disk : nat -> string -> bool;
  writes : nat
}.

Record response : Type := mk_response { text : string }.

(** The object and the world it acts on. *)
Definition state : Type := CryptoData * world.

(** ** [retrying.retry]

    [Retrying.call] runs the function, returns its result when it does not
    raise, re-raises when [attempt_number >= stop_max_attempt_number], and
    otherwise sleeps [random.randint(wait_random_min, wait_random_max)]
    milliseconds and starts over with [attempt_number + 1]. *)

Record Retrying : Type := mk_Retrying {
  stop_max_attempt_number : nat;
  wait_random_min : Z;
  wait_random_max : Z
}.

(** The random source and the sleeps of the process; [attempt_number] is
    the variable of that name in [Retrying.call]. *)
Record scheduler : Type := mk_scheduler {
  rng : nat -> Z;
  draws : nat;
  slept : list Z;
  attempt_number : nat
}.

(** [random.randint(a, b)] from the next raw draw. *)
Definition randint (a b : Z) (raw : Z) : Z := a + raw mod (b - a + 1).

Definition sleep_random (r : Retrying) (sch : scheduler) : scheduler :=
  mk_scheduler (rng sch) (S (draws sch))
    (slept sch ++ [randint (wait_random_min r) (wait_random_max r)
                     (rng sch (draws sch))])
    (S (attempt_number sch)).

(** The loop of [Retrying.call], with [remaining] the number of attempts
    still allowed after this one, that is
    [stop_max_attempt_number - attempt_number]. *)
Fixpoint attempts {S A} (r : Retrying) (remaining : nat) (fn : prog S A)
  (s : S) (sch : scheduler) : except A * (S * scheduler) :=
  match fn s with
  | (Ok v, s1) => (Ok v, (s1, sch))
  | (Raise e, s1) =>
      match remaining with
      | O => (Raise e, (s1, sch))
      | Datatypes.S k => attempts r k fn s1 (sleep_random r sch)
      end
  end.

Definition call {S A} (r : Retrying) (fn : prog S A) : prog (S * scheduler) A :=
  fun '(s, sch) =>
    attempts r (stop_max_attempt_number r - 1) fn s
      (mk_scheduler (rng sch) (draws sch) (slept sch) 1).

(** What [run] returns: the object itself or its table. *)
Inductive run_value : Type :=
  | RetSelf
  | RetData (d : option DataFrame).

Definition cols : list string :=
  ["datetime_utc"; "open"; "high"; "low"; "close"; "quoteVolume"; "volume";
   "weightedAverage"]%string.

Section Pipeline.

(** [json.loads]. *)
Variable json_loads : string -> except pyvalue.
(** [datetime.datetime.utcfromtimestamp] on a float. *)
Variable float_utcfromtimestamp : pyfloat -> except datetime.
(** [pd.DataFrame] on anything but a list of dicts. *)
Variable frame_of_other : pyvalue -> except DataFrame.
(** The text [DataFrame.to_csv(index=False)] produces. *)
Variable to_csv_text : DataFrame -> string.

(** [get_api_data]: [requests.get(self.url)]. *)
Definition get_api_data : prog state response :=
  fun '(self, w) =>
    let w' := mk_world (files w) (net w) (S (requests w)) (disk w) (writes w) in
    match net w (requests w) (url self) with
    | Ok body => (Ok (mk_response body), (self, w'))
    | Raise e => (Raise e, (self, w'))
    end.

Definition invalid_pair_message (pair : string) : string :=
  pair +:+ " is not a valid currency pair. " +:+ "You must use one of: "
  +:+ newline +:+ py_repr (PyList (List.map PyStr AVAILABLE_CURRENCY_PAIRS)).

(** [parse_api_data_text] *)
Definition parse_api_data_text (self : CryptoData) (resp : response)
  : except pyvalue :=
  let* parsed_data := json_loads (text resp) in
  match parsed_data with
  | PyDict d =>
      match dict_get "error" d with
      | Some err =>
          if eq_str err "Invalid currency pair."
          then Raise (Exception (invalid_pair_message (currency_pair self)))
          else Raise (Exception ("API Error: " +:+ py_str err))
      | None => Ok parsed_data
      end
  | _ => Ok parsed_data
  end.

(** [pd.DataFrame(parsed_data)] *)
Definition pd_DataFrame (parsed_data : pyvalue) : except DataFrame :=
  match parsed_data with
  | PyList l =>
      match as_records l with
      | Some records => Ok (frame_of_records records)
      | None => frame_of_other parsed_data
      end
  | _ => frame_of_other parsed_data
  end.

(** [datetime.datetime.utcfromtimestamp] applied to a cell. *)
Definition cell_utcfromtimestamp (c : cell) : except datetime :=
  match c with
  | Obj (PyInt t) => utcfromtimestamp t
  | Obj (PyBool b) => utcfromtimestamp (if b then 1 else 0)
  | Obj (PyFloat f) => float_utcfromtimestamp f
  | NaN => Raise (ValueError "cannot convert float NaN to integer")
  | _ => Raise (TypeError "an integer is required")
  end.

(** The table [build_dataframe] stores in [self.data]. *)
Definition build_table (parsed_data : pyvalue) : except DataFrame :=
  let* data := pd_DataFrame parsed_data in
  let* date := get_column "date" data in
  let* datetimes := map_except cell_utcfromtimestamp date in
  let data := set_column "datetime" (List.map Timestamp datetimes) data in
  let* data := sort_values "datetime" data in
  let* datetime := get_column "datetime" data in
  let data := set_column "datetime_utc" datetime data in
  select_columns cols data.

(** [build_dataframe] *)
Definition build_dataframe (parsed_data : pyvalue) : prog CryptoData unit :=
  fun self =>
    match build_table parsed_data with
    | Ok table => (Ok tt, set_data self (Some table))
    | Raise e => (Raise e, self)
    end.

(** [dataframe.to_csv(path, index=False)]: without a path the text is
    the return value; with one the file is opened for writing (which
    empties it) and the text becomes its content. *)
Definition to_csv (dataframe : DataFrame) (path : option string)
  : prog world (option string) :=
  fun w =>
    match path with
    | None => (Ok (Some (to_csv_text dataframe)), w)
    | Some p =>
        let n := writes w in
        if disk w n p
        then (Ok None,
              mk_world (<[p := to_csv_text dataframe]> (files w)) (net w)
                (requests w) (disk w) (S n))
        else (Raise (OSError p),
              mk_world (files w) (net w) (requests w) (disk w) (S n))
    end.

(** [save_data]; the value of [to_csv] is dropped. *)
Definition save_data (dataframe : option DataFrame) : prog state unit :=
  fun '(self, w) =>
    match dataframe with
    | None => (Raise (AttributeError "to_csv"), (self, w))
    | Some df =>
        match to_csv df (destination self) w with
        | (Ok _, w') => (Ok tt, (self, w'))
        | (Raise e, w') => (Raise e, (self, w'))
        end
    end.

(** The block under [if self.data is None]. *)
Definition fetch_and_build : prog state unit :=
  do resp <- get_api_data;
  fun '(self, w) =>
    match parse_api_data_text self resp with
    | Raise e => (Raise e, (self, w))
    | Ok parsed_data =>
        let '(r, self') := build_dataframe parsed_data self in
        (r, (self', w))
    end.

(** The body of [run], before the decorator. *)
Definition run_body (save : bool) : prog state run_value :=
  do _ <- (fun st : state =>
             match data (fst st) with
             | None => fetch_and_build st
             | Some _ => (Ok tt, st)
             end);
  if save then
    do _ <- (fun st : state => save_data (data (fst st)) st);
    pret RetSelf
  else
    fun st : state => (Ok (RetData (data (fst st))), st).

Definition run_retry : Retrying := mk_Retrying 7 1000 2000.

(** [run], as decorated. *)
Definition run (save : bool) : prog (state * scheduler) run_value :=
  call run_retry (run_body save).

End Pipeline.

(** ** The records of the API

    One candle as the API sends it: [date] is a unix timestamp, the other
    fields are decimal numbers, which [json.loads] reads as floats. *)

Record RawCandle : Type := mk_RawCandle {
  date : Z;
  high : pyfloat;
  low : pyfloat;
  open : pyfloat;
  close : pyfloat;
  volume : pyfloat;
  quoteVolume : pyfloat;
  weightedAverage : pyfloat
}.

(** The dict [json.loads] builds for a candle, keys in the order of the
    API's answer. *)
Definition raw_record (c : RawCandle) : pydict :=
  [("date", PyInt (date c)); ("high", PyFloat (high c));
   ("low", PyFloat (low c)); ("open", PyFloat (open c));
   ("close", PyFloat (close c)); ("volume", PyFloat (volume c));
   ("quoteVolume", PyFloat (quoteVolume c));
   ("weightedAverage", PyFloat (weightedAverage c))]%string.

Definition raw_candles (raws : list RawCandle) : pyvalue :=
  PyList (List.map (fun c => PyDict (raw_record c)) raws).

(** The row of the result that comes from the candle at position [i]. *)
Definition candle_row (ic : nat * RawCandle) : row :=
  let c := snd ic in
  mk_row (fst ic)
    [Timestamp (utc_datetime (date c)); Obj (PyFloat (open c));
     Obj (PyFloat (high c)); Obj (PyFloat (low c)); Obj (PyFloat (close c));
     Obj (PyFloat (quoteVolume c)); Obj (PyFloat (volume c));
     Obj (PyFloat (weightedAverage c))].

Definition indexed {A} (l : list A) : list (nat * A) :=
  combine (seq 0 (length l)) l.

(** The order [sort_values] puts the candles in. *)
Definition candle_leb (a b : nat * RawCandle) : bool :=
  datetime_leb (utc_datetime (date (snd a))) (utc_datetime (date (snd b))).

(** Candle [a] is not later than candle [b]. *)
Definition not_later (a b : nat * RawCandle) : Prop := candle_leb a b = true.

(** The columns and a row of the table [pd.DataFrame] makes of candles. *)
Definition api_columns : list string :=
  ["date"; "high"; "low"; "open"; "close"; "volume"; "quoteVolume";
   "weightedAverage"]%string.

Definition raw_row (ic : nat * RawCandle) : row :=
  let c := snd ic in
  mk_row (fst ic)
    [Obj (PyInt (date c)); Obj (PyFloat (high c)); Obj (PyFloat (low c));
     Obj (PyFloat (open c)); Obj (PyFloat (close c)); Obj (PyFloat (volume c));
     Obj (PyFloat (quoteVolume c)); Obj (PyFloat (weightedAverage c))].

(** [needle in haystack] for strings. *)
Fixpoint is_prefix (a b : string) : bool :=
  match a, b with
  | EmptyString, _ => true
  | String x a', String y b' => Ascii.eqb x y && is_prefix a' b'
  | String _ _, EmptyString => false
  end.

Fixpoint occurs_in (needle haystack : string) : bool :=
  is_prefix needle haystack
  || match haystack with
     | EmptyString => false
     | String _ h' => occurs_in needle h'
     end.

(** The two ways [parse_api_data_text] raises.  The source raises
    Python's [Exception] both times; the message tells them apart. *)
Definition InvalidCurrencyPairError (pair : string) (e : exn) : Prop :=
  e = Exception (invalid_pair_message pair).

Definition ApiError (message : string) (e : exn) : Prop :=
  e = Exception ("API Error: " +:+ message).

(** ** Sample machines, answers and worlds *)

Module Sample.

Definition utc : machine := {| utcoffset := fun _ => 0; clock := 1500000000 |}.

(** A zone one hour east of Greenwich. *)
Definition utc_plus_1 : machine :=
  {| utcoffset := fun _ => 3600; clock := 1500000000 |}.

Definition candle (t : Z) : RawCandle :=
  mk_RawCandle t (Float "0.0045388") (Float "0.00403001")
    (Float "0.00404545") (Float "0.00427592") (Float "44.11655644")
    (Float "10259.29079097") (Float "0.00430015").

Definition out_of_order : list RawCandle :=
  [candle 1405699200; candle 1405684800; candle 1405713600;
   candle 1405684800].

Definition quoted (s : string) : string := dquote +:+ s +:+ dquote.

(** Three answers of the API. *)
Definition invalid_pair_body : string :=
  "{" +:+ quoted "error" +:+ ":" +:+ quoted "Invalid currency pair." +:+ "}".

Definition other_error_body : string :=
  "{" +:+ quoted "error" +:+ ":" +:+ quoted "something else" +:+ "}".

Definition candles_body : string :=
  "[{" +:+ quoted "date" +:+ ":1405699200," +:+ quoted "high"
  +:+ ":0.0045388," +:+ quoted "low" +:+ ":0.00403001," +:+ quoted "open"
  +:+ ":0.00404545," +:+ quoted "close" +:+ ":0.00427592,"
  +:+ quoted "volume" +:+ ":44.11655644," +:+ quoted "quoteVolume"
  +:+ ":10259.29079097," +:+ quoted "weightedAverage" +:+ ":0.00430015}]".

(** A reader that knows these three bodies. *)
Definition json_loads (body : string) : except pyvalue :=
  if String.eqb body invalid_pair_body
  then Ok (PyDict [("error"%string, PyStr "Invalid currency pair.")])
  else if String.eqb body other_error_body
  then Ok (PyDict [("error"%string, PyStr "something else")])
  else if String.eqb body candles_body
  then Ok (raw_candles [candle 1405699200])
  else Raise (ValueError "Expecting value").

Definition float_utcfromtimestamp (f : pyfloat) : except datetime :=
  Raise (ValueError (float_repr f)).

Definition frame_of_other (v : pyvalue) : except DataFrame :=
  Raise (ValueError "DataFrame constructor not properly called!").

Definition to_csv_text (df : DataFrame) : string :=
  join "," (columns df).

Definition scheduler0 : scheduler := mk_scheduler (fun n => Z.of_nat n * 7919) 0 [] 0.

(** A server that always answers with candles and a disk on which only
    the first attempt to open a file fails. *)
Definition flaky_disk : world :=
  mk_world ∅ (fun _ _ => Ok candles_body) 0
    (fun n _ => negb (n =? 0)%nat) 0.

Definition path : string := "/home/user/USDT_BTC_300.csv".

(** A world in which the destination already has a content. *)
Definition old_file : world :=
  mk_world {[ path := "old text"%string ]} (fun _ _ => Ok candles_body) 0
    (fun _ _ => true) 0.

(** A server that never answers. *)
Definition dead_net : world :=
  mk_world ∅ (fun _ _ => Raise (ConnectionError "refused")) 0
    (fun _ _ => true) 0.

(** A server that fails six times and then answers. *)
Definition flaky_net : world :=
  mk_world ∅ (fun n _ => if (n <? 6)%nat then Raise (ConnectionError "reset")
                         else Ok candles_body) 0
    (fun _ _ => true) 0.

Definition client (dest : option string) : CryptoData :=
  mk_CryptoData "USDT_BTC" 1420070400 9999999999 300 "returnChartData" dest
    None
    (build_url "returnChartData" "USDT_BTC" 1420070400 9999999999 300).

(** An object that already holds a table. *)
Definition table : DataFrame :=
  mk_frame cols [candle_row (0%nat, candle 1405699200)].

Definition client_with_table : CryptoData :=
  set_data (client (Some path)) (Some table).

(** An operation on a counter that fails until the counter reaches [n]. *)
Definition fails_until (n : nat) : prog nat nat :=
  fun k => if (k <? n)%nat then (Raise (ConnectionError "reset"), S k)
           else (Ok k, S k).

End Sample.

(** ** Traces of repeated calls *)

(** The state after [n] calls of [fn] in a row, starting in [s]. *)
Fixpoint after {S A} (fn : prog S A) (n : nat) (s : S) : S :=
  match n with
  | O => s
  | Datatypes.S n' => after fn n' (snd (fn s))
  end.

(** The outcome of call number [n], counting from 0. *)
Definition outcome {S A} (fn : prog S A) (n : nat) (s : S) : except A :=
  fst (fn (after fn n s)).

(** The delays [Retrying.call] draws from draw number [start] on. *)
Definition delays (r : Retrying) (rng : nat -> Z) (start n : nat) : list Z :=
  List.map (fun i => randint (wait_random_min r) (wait_random_max r) (rng i))
           (seq start n).

(** The scheduler after [n] retries. *)
Definition retried (r : Retrying) (sch : scheduler) (n : nat) : scheduler :=
  mk_scheduler (rng sch) (draws sch + n)
    (slept sch ++ delays r (rng sch) (draws sch) n)
    (attempt_number sch + n).

(** ** The command line

    The script under [if __name__ == '__main__']: what [argparse] hands
    over, the table [--pairs] prints, the default destination and the call
    of [run]. *)

Record cli_args : Type := mk_cli {
  cli_currency_pair : string;
  cli_period : Z;
  cli_dest : option string;
  cli_start_date : string;
  cli_end_date : option string;
  cli_pairs : bool
}.

(** [strftime('%Y-%m-%d')], for the years 1000 to 9999 in which every
    platform prints four digits. *)
Definition digit_char (n : Z) : ascii := ascii_of_nat (Z.to_nat (48 + n)).

Definition two_digits (n : Z) : list ascii :=
  [digit_char (n / 10 mod 10); digit_char (n mod 10)].

Definition four_digits (n : Z) : list ascii :=
  [digit_char (n / 1000 mod 10); digit_char (n / 100 mod 10);
   digit_char (n / 10 mod 10); digit_char (n mod 10)].

Definition strftime_ymd (d : datetime) : string :=
  string_of_list_ascii
    (four_digits (year d) ++ "-"%char :: two_digits (month d)
     ++ "-"%char :: two_digits (day d)).

(** The default of [--start-date]: the UTC date thirty days before now. *)
Definition default_start_date (mc : machine) : string :=
  strftime_ymd (utc_datetime (clock mc - 30 * 86400)).

(** The defaults of the parser. *)
Definition default_cli (mc : machine) : cli_args :=
  mk_cli "USDT_LTC" 14400 None (default_start_date mc) None false.

(** [[l[x:x + 3] for x in range(0, len(l), 3)]] *)
Fixpoint chunks3 (l : list string) : list (list string) :=
  match l with
  | a :: b :: c :: rest => [a; b; c] :: chunks3 rest
  | [] => []
  | short => [short]
  end.

(** [zip( *rows)]: as many columns as the shortest row has cells. *)
Definition zip_rows (rows : list (list string)) : list (list string) :=
  match rows with
  | [] => []
  | r :: rows' =>
      let n := fold_right (fun row n => Nat.min (length row) n) (length r) rows' in
      List.map (fun j => List.map (fun row => nth j row EmptyString) rows)
               (seq 0 n)
  end.

(** [max(map(len, col))] *)
Definition widest (col : list string) : nat :=
  fold_right (fun cell w => Nat.max (String.length cell) w) 0%nat col.

Fixpoint spaces (n : nat) : string :=
  match n with
  | O => EmptyString
  | S n' => String " "%char (spaces n')
  end.

(** ['{:w}'.format(s)] for a string and a width of at least 1: [s], with
    spaces after it up to the width. *)
Definition ljust (w : nat) (s : string) : string :=
  s +:+ spaces (w - String.length s).

Definition tab : string := chr 9.

(** [fmt.format( *row)], where [fmt] has one field per width: the cells of
    the row beyond the last width are not used. *)
Definition format_row (lens : list nat) (row : list string) : string :=
  join tab (List.map (fun wc => ljust (fst wc) (snd wc)) (combine lens row)).

(** The lines [--pairs] prints for a list of pairs. *)
Definition pairs_table (pairs : list string) : list string :=
  let setup := chunks3 pairs in
  let lens := List.map widest (zip_rows setup) in
  List.map (format_row lens) setup.

(** [DESTINATION]; [SAVE] is the constant [True]. *)
Definition DESTINATION (home_dir : string) (args : cli_args) : option string :=
  match cli_dest args with
  | None =>
      Some (home_dir +:+ "/" +:+ cli_currency_pair args +:+ "_"
            +:+ str_of_int (cli_period args) +:+ ".csv")
  | Some dest => Some dest
  end.

(** What the script leaves behind: what it printed, the global [client]
    when it got that far, how [client.run] ended, the world and the
    scheduler. *)
Record main_outcome : Type := mk_outcome {
  printed : list string;
  client : option CryptoData;
  ended : except run_value;
  world_after : world;
  scheduler_after : scheduler
}.

Section CommandLine.

Variable json_loads : string -> except pyvalue.
Variable float_utcfromtimestamp : pyfloat -> except datetime.
Variable frame_of_other : pyvalue -> except DataFrame.
Variable to_csv_text : DataFrame -> string.

Definition main (mc : machine) (home_dir : string) (args : cli_args)
  (w : world) (sch : scheduler) : main_outcome :=
  let printed :=
    if cli_pairs args
    then [join newline (pairs_table AVAILABLE_CURRENCY_PAIRS)]
    else [] in
  match __init__ mc
          (mk_args (cli_currency_pair args) (Some (cli_start_date args))
             (cli_end_date args) (cli_period args)
             (DESTINATION home_dir args) "returnChartData") with
  | Raise e => mk_outcome printed None (Raise e) w sch
  | Ok new =>
      let '(r, ((self, w'), sch')) :=
        run json_loads float_utcfromtimestamp frame_of_other to_csv_text true
          ((new, w), sch) in
      mk_outcome printed (Some self) r w' sch'
  end.

End CommandLine.

(** The object the script constructs from its arguments. *)
Definition init_of (mc : machine) (home_dir : string) (args : cli_args)
  : except CryptoData :=
  __init__ mc
    (mk_args (cli_currency_pair args) (Some (cli_start_date args))
       (cli_end_date args) (cli_period args) (DESTINATION home_dir args)
       "returnChartData").

(** ** Orders and sums used in the statements *)

(** One calendar date is before another. *)
Definition date_lt (a b : Z * Z * Z) : Prop :=
  let '(y, m, d) := a in
  let '(y', m', d') := b in
  y < y' \/ (y = y' /\ (m < m' \/ (m = m' /\ d < d'))).

(** The milliseconds slept since the scheduler was [before]. *)
Definition slept_since (before after : scheduler) : Z :=
  fold_right Z.add 0 (skipn (length (slept before)) (slept after)).

(** The first day of a month, counted in months since year 0. *)
Definition month_start (k : Z) : Z :=
  Calendar.days_from_civil (k / 12) (k mod 12 + 1) 1.

Definition month_length (k : Z) : Z :=
  Calendar.days_in_month (k / 12) (k mod 12 + 1).

(** More samples. *)
Module Scenario.

(** A server that rejects the currency pair, every time. *)
Definition rejecting_net : world :=
  mk_world ∅ (fun _ _ => Ok Sample.invalid_pair_body) 0 (fun _ _ => true) 0.

Definition home_dir : string := "/home/user".

Definition daily : cli_args :=
  mk_cli "usdt_ltc" 86400 None "2015-01-01" None true.

Definition bad_date : cli_args :=
  mk_cli "USDT_LTC" 14400 None "01/01/2015" None true.

(** A record of the API without the [date] field. *)
Definition undated : pydict :=
  [("high", PyFloat (Float "0.0045388")); ("low", PyFloat (Float "0.00403001"));
   ("open", PyFloat (Float "0.00404545"));
   ("close", PyFloat (Float "0.00427592"));
   ("volume", PyFloat (Float "44.11655644"));
   ("quoteVolume", PyFloat (Float "10259.29079097"));
   ("weightedAverage", PyFloat (Float "0.00430015"))]%string.

Definition in_order : list RawCandle :=
  [Sample.candle 1405684800; Sample.candle 1405699200;
   Sample.candle 1405713600].

End Scenario.

(** * Properties *)

(** ** The library models on known values *)

Example utcfromtimestamp_sample :
  utcfromtimestamp 1405699200 = Ok (mk_datetime 2014 7 18 16 0 0 0)
  /\ utcfromtimestamp 0 = Ok (mk_datetime 1970 1 1 0 0 0 0)
  /\ utcfromtimestamp (-1) = Ok (mk_datetime 1969 12 31 23 59 59 0)
  /\ utcfromtimestamp 253402300799 = Ok (mk_datetime 9999 12 31 23 59 59 0)
  /\ utcfromtimestamp 253402300800 = Raise (ValueError "year is out of range").
Proof. repeat split; vm_compute; reflexivity. Qed.

Example calendar_sample :
  Calendar.days_from_civil 2000 2 29 = 11016
  /\ Calendar.civil_from_days 11016 = (2000, 2, 29)
  /\ Calendar.civil_from_days 11017 = (2000, 3, 1)
  /\ Calendar.days_from_civil 1970 1 1 = 0.
Proof. repeat split; vm_compute; reflexivity. Qed.

Example strptime_sample :
  strptime_ymd "2016-02-29" = Ok (mk_datetime 2016 2 29 0 0 0 0)
  /\ strptime_ymd "2015-1-1" = Ok (mk_datetime 2015 1 1 0 0 0 0)
  /\ strptime_ymd "2015-02-29" = Raise (ValueError "date out of range")
  /\ strptime_ymd "2015-13-01"
     = Raise (ValueError "time data does not match format")
  /\ strptime_ymd "2015-01-011" = Raise (ValueError "unconverted data remains")
  /\ strptime_ymd "01/01/2015"
     = Raise (ValueError "time data does not match format").
Proof. repeat split; vm_compute; reflexivity. Qed.

Example py_repr_sample :
  py_repr (PyList [PyStr "BTC_AMP"; PyStr "BTC_ARDR"]) = "['BTC_AMP', 'BTC_ARDR']"%string
  /\ py_str (PyStr "something else") = "something else"%string
  /\ py_str (PyInt (-42)) = "-42"%string
  /\ py_str PyNone = "None"%string.
Proof. repeat split; vm_compute; reflexivity. Qed.

(** The candles of [Sample.out_of_order] come out in the order of rows
    1, 3, 0, 2 of the input. *)
Example build_table_sample :
  match build_table Sample.float_utcfromtimestamp Sample.frame_of_other
          (raw_candles Sample.out_of_order) with
  | Ok table => columns table = cols
                /\ List.map label (rows table) = [1; 3; 0; 2]%nat
  | Raise _ => False
  end.
Proof. vm_compute. split; reflexivity. Qed.

(** ** Construction *)

Lemma construct_fields (mc : machine) (a : init_args) (self : CryptoData) :
  __init__ mc a = Ok self ->
  currency_pair self = upper (arg_currency_pair a)
  /\ get_timestamp mc (arg_start_date a) = Ok (start_timestamp self)
  /\ period self = 300
  /\ api self = arg_api a
  /\ destination self = arg_destination a
  /\ data self = None
  /\ url self = build_url (api self) (currency_pair self)
                  (start_timestamp self) (end_timestamp self) (period self).
Proof.
  unfold __init__.
  destruct (get_timestamp mc (arg_start_date a)) as [t0|e]; simpl; [|discriminate].
  destruct (if falsy (arg_end_date a) then Ok 9999999999
            else get_timestamp mc (arg_end_date a)) as [t1|e]; simpl;
    [|discriminate].
  intros [= <-]; simpl. repeat split; reflexivity.
Qed.

(** C2: whatever period the caller passes, the object is the same: its
    [period] is the constant 300 and its URL ends in [&period=300]. *)
Theorem construct_ignores_period (mc : machine) (a : init_args) (p : Z) :
  __init__ mc (mk_args (arg_currency_pair a) (arg_start_date a)
                  (arg_end_date a) p (arg_destination a) (arg_api a))
  = __init__ mc a
  /\ forall self, __init__ mc a = Ok self ->
       period self = 300
       /\ url self =
            "https://poloniex.com/public?command=" +:+ arg_api a
            +:+ "&currencyPair=" +:+ upper (arg_currency_pair a)
            +:+ "&start=" +:+ str_of_int (start_timestamp self)
            +:+ "&end=" +:+ str_of_int (end_timestamp self)
            +:+ "&period=300".
Proof.
  split; [reflexivity|].
  intros self H.
  destruct (construct_fields mc a self H) as (Hc & _ & Hp & Ha & _ & _ & Hu).
  split; [exact Hp|].
  rewrite Hu, Hp, Ha, Hc. reflexivity.
Qed.

Lemma construct_ignores_period_witness :
  Forall (fun p =>
            exists self,
              __init__ Sample.utc
                (mk_args "usdt_btc" (Some "2015-01-01"%string) None p None
                   "returnChartData") = Ok self
              /\ period self = 300
              /\ url self = "https://poloniex.com/public?command=returnChartData&currencyPair=USDT_BTC&start=1420070400&end=9999999999&period=300"%string)
         [300; 900; 1800; 7200; 14400; 86400].
Proof.
  repeat constructor;
    (eexists; split; [vm_compute; reflexivity|];
     split;
     [ apply (construct_ignores_period Sample.utc
                (mk_args "usdt_btc" (Some "2015-01-01"%string) None 14400 None
                   "returnChartData") 0); vm_compute; reflexivity
     | vm_compute; reflexivity ]).
Defined.

(** C6, as [time.mktime] computes it: the timestamp of a date is the midnight of
    that date in the LOCAL zone of the machine.  On a machine set to UTC
    2015-01-01 gives 1420070400; one hour east of Greenwich the same string
    gives 1420066800, which is 2014-12-31 23:00 UTC. *)
Theorem get_timestamp_follows_local_zone :
  (forall mc s d, strptime_ymd s = Ok d ->
     get_timestamp mc (Some s) = Ok (timegm d - utcoffset mc (timegm d)))
  /\ get_timestamp Sample.utc (Some "2015-01-01"%string) = Ok 1420070400
  /\ get_timestamp Sample.utc_plus_1 (Some "2015-01-01"%string) = Ok 1420066800
  /\ utcfromtimestamp 1420066800 = Ok (mk_datetime 2014 12 31 23 0 0 0)
  /\ (exists self, __init__ Sample.utc_plus_1 default_args = Ok self
                   /\ start_timestamp self = 1420066800).
Proof.
  split.
  { intros mc s d H. unfold get_timestamp. rewrite H. reflexivity. }
  split; [vm_compute; reflexivity|].
  split; [vm_compute; reflexivity|].
  split; [vm_compute; reflexivity|].
  eexists; split; vm_compute; reflexivity.
Qed.

Lemma get_timestamp_follows_local_zone_witness :
  get_timestamp Sample.utc_plus_1 (Some "2016-02-29"%string)
  = Ok (1456704000 - 3600).
Proof.
  apply (proj1 get_timestamp_follows_local_zone Sample.utc_plus_1
           "2016-02-29"%string (mk_datetime 2016 2 29 0 0 0 0)).
  vm_compute; reflexivity.
Defined.

(** C7: without an end date the end timestamp is the constant 9999999999,
    whatever the clock says; a given end date is converted by
    [get_timestamp] like the start date. *)
Theorem construct_end_timestamp (mc : machine) (a : init_args) (t0 : Z) :
  get_timestamp mc (arg_start_date a) = Ok t0 ->
  (arg_end_date a = None ->
     exists self, __init__ mc a = Ok self /\ end_timestamp self = 9999999999)
  /\ (forall s t1, arg_end_date a = Some s -> s <> EmptyString ->
        get_timestamp mc (Some s) = Ok t1 ->
        exists self, __init__ mc a = Ok self /\ end_timestamp self = t1)
  /\ (forall s e, arg_end_date a = Some s -> s <> EmptyString ->
        get_timestamp mc (Some s) = Raise e -> __init__ mc a = Raise e).
Proof.
  intros H0.
  split; [|split].
  - intros He. unfold __init__. rewrite H0, He. simpl.
    eexists; split; reflexivity.
  - intros s t1 He Hs H1. unfold __init__. rewrite H0, He.
    destruct s; [congruence|]. simpl falsy. cbv iota. rewrite H1. simpl.
    eexists; split; reflexivity.
  - intros s e He Hs H1. unfold __init__. rewrite H0, He.
    destruct s; [congruence|]. simpl falsy. cbv iota. rewrite H1. reflexivity.
Qed.

Lemma construct_end_timestamp_witness :
  (exists self, __init__ Sample.utc default_args = Ok self
                /\ end_timestamp self = 9999999999)
  /\ (exists self,
        __init__ Sample.utc
          (mk_args "USDT_LTC" (Some "2015-01-01"%string)
             (Some "2015-01-02"%string) 14400 None "returnChartData") = Ok self
        /\ end_timestamp self = 1420156800)
  /\ __init__ Sample.utc
       (mk_args "USDT_LTC" (Some "2015-01-01"%string)
          (Some "2015-02-30"%string) 14400 None "returnChartData")
     = Raise (ValueError "date out of range").
Proof.
  split; [|split].
  - apply (construct_end_timestamp Sample.utc default_args 1420070400);
      vm_compute; reflexivity.
  - apply (proj1 (proj2 (construct_end_timestamp Sample.utc
             (mk_args "USDT_LTC" (Some "2015-01-01"%string)
                (Some "2015-01-02"%string) 14400 None "returnChartData")
             1420070400 ltac:(vm_compute; reflexivity)))
             "2015-01-02"%string 1420156800);
      [reflexivity | discriminate | vm_compute; reflexivity].
  - apply (proj2 (proj2 (construct_end_timestamp Sample.utc
             (mk_args "USDT_LTC" (Some "2015-01-01"%string)
                (Some "2015-02-30"%string) 14400 None "returnChartData")
             1420070400 ltac:(vm_compute; reflexivity)))
             "2015-02-30"%string);
      [reflexivity | discriminate | vm_compute; reflexivity].
Defined.

(** ** Parsing the answer *)

Lemma occurs_in_app (needle x y : string) :
  occurs_in needle y = true -> occurs_in needle (x +:+ y) = true.
Proof.
  intros H. induction x as [|c x IH]; simpl; [exact H|].
  rewrite IH. apply orb_true_r.
Qed.

Lemma eq_str_true (v : pyvalue) (s : string) :
  eq_str v s = true <-> v = PyStr s.
Proof.
  destruct v; simpl; try (split; [discriminate | intros [=]]).
  rewrite String.eqb_eq. split; [intros ->; reflexivity | intros [=]; assumption].
Qed.

Lemma forallb_true_Forall {A} (f : A -> bool) (l : list A) :
  forallb f l = true -> Forall (fun x => f x = true) l.
Proof.
  induction l as [|x l IH]; simpl; intros H; constructor.
  - apply andb_prop in H. tauto.
  - apply IH. apply andb_prop in H. tauto.
Qed.

Lemma invalid_pair_message_lists_pairs (pair : string) :
  Forall (fun p => occurs_in (repr_str p) (invalid_pair_message pair) = true)
         AVAILABLE_CURRENCY_PAIRS.
Proof.
  assert (H : Forall (fun p => occurs_in (repr_str p)
                     (py_repr (PyList (List.map PyStr AVAILABLE_CURRENCY_PAIRS)))
                   = true) AVAILABLE_CURRENCY_PAIRS).
  { apply forallb_true_Forall. vm_compute. reflexivity. }
  induction H as [|p l Hp _ IH]; constructor; [|exact IH].
  unfold invalid_pair_message. do 4 apply occurs_in_app. exact Hp.
Qed.

(** C3: when the body parses to an object with an "error" key,
    [parse_api_data_text] raises: for the value 'Invalid currency pair.'
    with a message that contains every pair of the list, for any other value
    with a message that carries that value; when the body parses to an
    array it returns the array. *)
Theorem parse_api_data_text_outcomes
  (json_loads : string -> except pyvalue) (self : CryptoData) (resp : response) :
  (forall d err,
      json_loads (text resp) = Ok (PyDict d) ->
      dict_get "error" d = Some err ->
      exists e,
        parse_api_data_text json_loads self resp = Raise e
        /\ (err = PyStr "Invalid currency pair." ->
              InvalidCurrencyPairError (currency_pair self) e
              /\ Forall (fun p => occurs_in (repr_str p)
                                    (invalid_pair_message (currency_pair self))
                                  = true)
                        AVAILABLE_CURRENCY_PAIRS)
        /\ (err <> PyStr "Invalid currency pair." -> ApiError (py_str err) e))
  /\ (forall l,
        json_loads (text resp) = Ok (PyList l) ->
        parse_api_data_text json_loads self resp = Ok (PyList l)).
Proof.
  split.
  - intros d err Hload Hget.
    unfold parse_api_data_text. rewrite Hload. simpl. rewrite Hget.
    destruct (eq_str err "Invalid currency pair.") eqn:Heq.
    + eexists; split; [reflexivity|]. split.
      * intros _. split; [reflexivity|].
        apply invalid_pair_message_lists_pairs.
      * intros Hne. apply eq_str_true in Heq. contradiction.
    + eexists; split; [reflexivity|]. split.
      * intros He. apply eq_str_true in He. congruence.
      * intros _. reflexivity.
  - intros l Hload. unfold parse_api_data_text. rewrite Hload. reflexivity.
Qed.

Lemma parse_api_data_text_outcomes_witness :
  (exists e,
     parse_api_data_text Sample.json_loads (Sample.client None)
       (mk_response Sample.invalid_pair_body) = Raise e
     /\ InvalidCurrencyPairError "USDT_BTC" e)
  /\ (exists e,
        parse_api_data_text Sample.json_loads (Sample.client None)
          (mk_response Sample.other_error_body) = Raise e
        /\ ApiError "something else" e)
  /\ parse_api_data_text Sample.json_loads (Sample.client None)
       (mk_response Sample.candles_body)
     = Ok (raw_candles [Sample.candle 1405699200]).
Proof.
  split; [|split].
  - destruct (proj1 (parse_api_data_text_outcomes Sample.json_loads
                       (Sample.client None)
                       (mk_response Sample.invalid_pair_body))
                [("error"%string, PyStr "Invalid currency pair.")]
                (PyStr "Invalid currency pair.") eq_refl eq_refl)
      as (e & He & Hinv & _).
    exists e. split; [exact He|]. apply Hinv. reflexivity.
  - destruct (proj1 (parse_api_data_text_outcomes Sample.json_loads
                       (Sample.client None)
                       (mk_response Sample.other_error_body))
                [("error"%string, PyStr "something else")]
                (PyStr "something else") eq_refl eq_refl)
      as (e & He & _ & Hapi).
    exists e. split; [exact He|]. apply Hapi. discriminate.
  - apply (proj2 (parse_api_data_text_outcomes Sample.json_loads
                    (Sample.client None) (mk_response Sample.candles_body))).
    reflexivity.
Defined.

(** ** Sorting *)

Section Sorting.

Context {A : Type} (leb : A -> A -> bool).
Hypothesis leb_total : forall x y, leb x y = true \/ leb y x = true.
Hypothesis leb_trans :
  forall x y z, leb x y = true -> leb y z = true -> leb x z = true.

Lemma insert_by_perm (x : A) (l : list A) :
  Permutation (insert_by leb x l) (x :: l).
Proof.
  induction l as [|y l IH]; simpl; [reflexivity|].
  destruct (leb x y); [reflexivity|].
  rewrite IH. apply perm_swap.
Qed.

Lemma sort_by_perm (l : list A) : Permutation (sort_by leb l) l.
Proof.
  induction l as [|x l IH]; simpl; [reflexivity|].
  rewrite insert_by_perm. apply perm_skip, IH.
Qed.

Lemma insert_by_sorted (x : A) (l : list A) :
  StronglySorted (fun a b => leb a b = true) l ->
  StronglySorted (fun a b => leb a b = true) (insert_by leb x l).
Proof.
  induction 1 as [|y l Hl IH Hy]; simpl.
  - constructor; constructor.
  - destruct (leb x y) eqn:Hxy.
    + constructor; [constructor; assumption|].
      constructor; [exact Hxy|].
      eapply List.Forall_impl; [|exact Hy].
      intros z Hz. exact (leb_trans x y z Hxy Hz).
    + constructor; [exact IH|].
      eapply Permutation_Forall; [symmetry; apply insert_by_perm|].
      constructor; [|exact Hy].
      destruct (leb_total x y) as [H|H]; [congruence|exact H].
Qed.

Lemma sort_by_sorted (l : list A) :
  StronglySorted (fun a b => leb a b = true) (sort_by leb l).
Proof.
  induction l as [|x l IH]; simpl; [constructor|].
  apply insert_by_sorted, IH.
Qed.

End Sorting.

Lemma sort_by_map {A B} (leb : B -> B -> bool) (f : A -> B) (l : list A) :
  sort_by leb (List.map f l)
  = List.map f (sort_by (fun a b => leb (f a) (f b)) l).
Proof.
  induction l as [|x l IH]; simpl; [reflexivity|].
  rewrite IH. generalize (sort_by (fun a b => leb (f a) (f b)) l).
  intros s. induction s as [|y s IHs]; simpl; [reflexivity|].
  destruct (leb (f x) (f y)); simpl; [reflexivity|].
  rewrite IHs. reflexivity.
Qed.

(** The order of datetimes is total and transitive. *)
Lemma lex_leb_total (a b : list Z) : lex_leb a b = true \/ lex_leb b a = true.
Proof.
  revert b. induction a as [|x a IH]; intros [|y b]; simpl; auto.
  destruct (IH b) as [H|H]; rewrite H;
    destruct (Z.ltb_spec x y), (Z.ltb_spec y x), (Z.eqb_spec x y),
      (Z.eqb_spec y x); simpl; auto; lia.
Qed.

Lemma lex_leb_trans (a b c : list Z) :
  lex_leb a b = true -> lex_leb b c = true -> lex_leb a c = true.
Proof.
  revert b c. induction a as [|x a IH]; intros [|y b] [|z c]; simpl; auto;
    try discriminate.
  intros H1 H2.
  apply orb_true_iff in H1. apply orb_true_iff in H2. apply orb_true_iff.
  destruct H1 as [H1|H1], H2 as [H2|H2];
    try apply andb_true_iff in H1; try apply andb_true_iff in H2;
    rewrite ?Z.ltb_lt, ?Z.eqb_eq in *.
  - left. lia.
  - left. lia.
  - left. lia.
  - right. apply andb_true_iff. rewrite Z.eqb_eq. split; [lia|].
    eapply IH; [apply H1|apply H2].
Qed.

Lemma datetime_leb_total (a b : datetime) :
  datetime_leb a b = true \/ datetime_leb b a = true.
Proof. apply lex_leb_total. Qed.

Lemma datetime_leb_trans (a b c : datetime) :
  datetime_leb a b = true -> datetime_leb b c = true -> datetime_leb a c = true.
Proof. apply lex_leb_trans. Qed.

(** ** Building the table *)

Section Table.

Variable float_utcfromtimestamp : pyfloat -> except datetime.
Variable frame_of_other : pyvalue -> except DataFrame.

Local Abbreviation build :=
  (build_dataframe float_utcfromtimestamp frame_of_other).

(** *** Tables whose rows are computed from a list *)

Lemma combine_map {X B C} (g : X -> B) (h : X -> C) (xs : list X) :
  combine (List.map g xs) (List.map h xs) = List.map (fun x => (g x, h x)) xs.
Proof. induction xs as [|x xs IH]; simpl; [|rewrite IH]; reflexivity. Qed.

Lemma map_except_map {X B C} (f : B -> except C) (k : X -> B) (k' : X -> C)
  (xs : list X) :
  Forall (fun x => f (k x) = Ok (k' x)) xs ->
  map_except f (List.map k xs) = Ok (List.map k' xs).
Proof.
  induction 1 as [|x xs Hx _ IH]; simpl; [reflexivity|].
  rewrite Hx, IH. reflexivity.
Qed.

Lemma get_column_rows {X} (cs : list string) (name : string) (i : nat)
  (g : X -> row) (xs : list X) :
  column_index name cs = Some i ->
  get_column name (mk_frame cs (List.map g xs))
  = Ok (List.map (fun x => nth i (cells (g x)) NaN) xs).
Proof.
  intros H. unfold get_column. simpl. rewrite H, List.map_map. reflexivity.
Qed.

Lemma set_column_rows {X} (cs : list string) (name : string)
  (g : X -> row) (h : X -> cell) (xs : list X) :
  column_index name cs = None ->
  set_column name (List.map h xs) (mk_frame cs (List.map g xs))
  = mk_frame (cs ++ [name])
      (List.map (fun x => mk_row (label (g x)) (cells (g x) ++ [h x])) xs).
Proof.
  intros H. unfold set_column. simpl. rewrite H, combine_map, List.map_map.
  reflexivity.
Qed.

Lemma sort_values_rows {X} (cs : list string) (name : string) (i : nat)
  (g : X -> row) (key : X -> datetime) (xs : list X) :
  column_index name cs = Some i ->
  (forall x, nth i (cells (g x)) NaN = Timestamp (key x)) ->
  sort_values name (mk_frame cs (List.map g xs))
  = Ok (mk_frame cs
          (List.map g
             (sort_by (fun a b => datetime_leb (key a) (key b)) xs))).
Proof.
  intros Hi Hkey. unfold sort_values.
  rewrite (get_column_rows cs name i g xs Hi). cbn [except_bind].
  rewrite (map_except_map as_timestamp _ key).
  2: { apply List.Forall_forall. intros x _. rewrite Hkey. reflexivity. }
  cbn [except_bind rows columns].
  rewrite combine_map, sort_by_map, List.map_map. reflexivity.
Qed.

Lemma select_columns_rows {X} (cs names : list string) (idx : list nat)
  (g : X -> row) (xs : list X) :
  map_except (fun c => match column_index c cs with
                       | Some i => Ok i
                       | None => Raise (KeyError c)
                       end) names = Ok idx ->
  select_columns names (mk_frame cs (List.map g xs))
  = Ok (mk_frame names
          (List.map (fun x => mk_row (label (g x))
                                (List.map (fun i => nth i (cells (g x)) NaN) idx))
                    xs)).
Proof.
  intros H. unfold select_columns. simpl. rewrite H. cbn [except_bind].
  rewrite List.map_map. reflexivity.
Qed.

(** *** The table of a list of candles *)

Lemma as_records_raw (raws : list RawCandle) :
  as_records (List.map (fun c => PyDict (raw_record c)) raws)
  = Some (List.map raw_record raws).
Proof.
  induction raws as [|c raws IH]; simpl; [reflexivity|].
  rewrite IH. reflexivity.
Qed.

Lemma record_columns_raw (c : RawCandle) (raws : list RawCandle) :
  record_columns (List.map raw_record (c :: raws)) = api_columns.
Proof.
  unfold record_columns. simpl.
  induction raws as [|c' raws IH]; simpl; [reflexivity|exact IH].
Qed.

Lemma number_rows_raw (i : nat) (raws : list RawCandle) :
  number_rows i api_columns (List.map raw_record raws)
  = List.map raw_row (combine (seq i (length raws)) raws).
Proof.
  revert i. induction raws as [|c raws IH]; intros i; simpl; [reflexivity|].
  rewrite IH. reflexivity.
Qed.

Lemma pd_DataFrame_raw (c : RawCandle) (raws : list RawCandle) :
  pd_DataFrame frame_of_other (raw_candles (c :: raws))
  = Ok (mk_frame api_columns (List.map raw_row (indexed (c :: raws)))).
Proof.
  unfold pd_DataFrame, raw_candles. rewrite as_records_raw.
  unfold frame_of_records. rewrite record_columns_raw, number_rows_raw.
  reflexivity.
Qed.

Lemma build_table_raw (raws : list RawCandle) :
  raws <> [] ->
  Forall (fun c => representable (date c) = true) raws ->
  build_table float_utcfromtimestamp frame_of_other (raw_candles raws)
  = Ok (mk_frame cols (List.map candle_row (sort_by candle_leb (indexed raws)))).
Proof.
  intros Hne Hrep. destruct raws as [|c raws]; [congruence|].
  unfold build_table. rewrite pd_DataFrame_raw. cbn [except_bind].
  set (xs := indexed (c :: raws)).
  rewrite (get_column_rows api_columns "date" 0 raw_row xs eq_refl).
  cbn [except_bind].
  rewrite (map_except_map (cell_utcfromtimestamp float_utcfromtimestamp) _
             (fun ic => utc_datetime (date (snd ic)))).
  2: { apply List.Forall_forall. intros [i x] Hin. simpl.
       unfold utcfromtimestamp.
       assert (Hx : representable (date x) = true).
       { apply (proj1 (List.Forall_forall _ _) Hrep).
         eapply in_combine_r. exact Hin. }
       rewrite Hx. reflexivity. }
  cbn [except_bind]. rewrite List.map_map.
  rewrite (set_column_rows api_columns "datetime" raw_row _ xs eq_refl).
  rewrite (sort_values_rows (api_columns ++ ["datetime"%string]) "datetime" 8 _
             (fun ic => utc_datetime (date (snd ic))) xs eq_refl).
  2: { intros x. reflexivity. }
  cbn [except_bind].
  fold candle_leb.
  change (fun a b : nat * RawCandle =>
            datetime_leb (utc_datetime (date (snd a)))
              (utc_datetime (date (snd b)))) with candle_leb.
  set (out := sort_by candle_leb xs).
  rewrite (get_column_rows (api_columns ++ ["datetime"%string]) "datetime" 8 _
             out eq_refl).
  cbn [except_bind].
  rewrite (set_column_rows (api_columns ++ ["datetime"%string]) "datetime_utc" _
             (fun x => nth 8 (cells (mk_row (label (raw_row x))
                                       (cells (raw_row x)
                                        ++ [Timestamp (utc_datetime (date (snd x)))])))
                           NaN)
             out eq_refl).
  rewrite (select_columns_rows
             ((api_columns ++ ["datetime"%string]) ++ ["datetime_utc"%string])
             cols [9; 3; 1; 2; 4; 6; 5; 7]%nat _ out eq_refl).
  reflexivity.
Qed.

Lemma candle_leb_total (a b : nat * RawCandle) :
  candle_leb a b = true \/ candle_leb b a = true.
Proof. apply datetime_leb_total. Qed.

Lemma candle_leb_trans (a b c : nat * RawCandle) :
  candle_leb a b = true -> candle_leb b c = true -> candle_leb a c = true.
Proof. apply datetime_leb_trans. Qed.

(** C4, for at least one candle and dates that a [datetime] can hold:
    [build_dataframe] succeeds and stores the table
    with the eight columns of [cols] whose rows are the candles, each
    with the UTC datetime of its date first, rearranged so that no row is
    later than a row after it. *)
Theorem build_dataframe_sorted (raws : list RawCandle) (self : CryptoData) :
  raws <> [] ->
  Forall (fun c => representable (date c) = true) raws ->
  exists out : list (nat * RawCandle),
    Permutation out (indexed raws)
    /\ StronglySorted not_later out
    /\ build (raw_candles raws) self
       = (Ok tt, set_data self (Some (mk_frame cols (List.map candle_row out)))).
Proof.
  intros Hne Hrep. exists (sort_by candle_leb (indexed raws)).
  split; [apply sort_by_perm|].
  split; [apply (sort_by_sorted candle_leb candle_leb_total candle_leb_trans)|].
  unfold build_dataframe. rewrite (build_table_raw raws Hne Hrep).
  reflexivity.
Qed.

Lemma build_dataframe_again (parsed_data : pyvalue) (self : CryptoData) :
  build parsed_data (snd (build parsed_data self)) = build parsed_data self.
Proof.
  unfold build_dataframe.
  destruct (build_table _ _ parsed_data); reflexivity.
Qed.

(** C9: the empty array makes a table without columns, and
    [build_dataframe] raises [KeyError] on its first column access; the
    object is left as it was. *)
Theorem build_dataframe_empty_raises (self : CryptoData) :
  pd_DataFrame frame_of_other (raw_candles []) = Ok (mk_frame [] [])
  /\ build (raw_candles []) self = (Raise (KeyError "date"), self).
Proof. split; reflexivity. Qed.

(** C8: building the table a second time from the same candles gives
    the same outcome and leaves the same table in [self.data]. *)
Theorem build_dataframe_idempotent (raws : list RawCandle) (self : CryptoData) :
  let once := build (raw_candles raws) self in
  let twice := build (raw_candles raws) (snd once) in
  twice = once
  /\ data (snd twice) = data (snd once)
  /\ forall other : CryptoData,
       let elsewhere := build (raw_candles raws) other in
       fst elsewhere = fst once
       /\ data (snd elsewhere)
          = if is_ok (fst once) then data (snd once) else data other.
Proof.
  intros once twice. subst once twice.
  rewrite build_dataframe_again. split; [reflexivity|]. split; [reflexivity|].
  intros other. unfold build_dataframe.
  destruct (build_table _ _ (raw_candles raws)); split; reflexivity.
Qed.

End Table.

Lemma build_dataframe_sorted_witness :
  exists out : list (nat * RawCandle),
    Permutation out (indexed Sample.out_of_order)
    /\ StronglySorted not_later out
    /\ build_dataframe Sample.float_utcfromtimestamp Sample.frame_of_other
         (raw_candles Sample.out_of_order) (Sample.client None)
       = (Ok tt, set_data (Sample.client None)
                   (Some (mk_frame cols (List.map candle_row out)))).
Proof.
  apply (build_dataframe_sorted Sample.float_utcfromtimestamp
           Sample.frame_of_other Sample.out_of_order (Sample.client None)).
  - discriminate.
  - repeat constructor.
Defined.

(** The empty array and a date in the year 33658 make [build_dataframe]
    raise instead of returning a table. *)
Lemma build_dataframe_sorted_counterexample :
  build_dataframe Sample.float_utcfromtimestamp Sample.frame_of_other
    (raw_candles []) (Sample.client None)
  = (Raise (KeyError "date"), Sample.client None)
  /\ build_dataframe Sample.float_utcfromtimestamp Sample.frame_of_other
       (raw_candles [Sample.candle 1000000000000]) (Sample.client None)
     = (Raise (ValueError "year is out of range"), Sample.client None).
Proof. split; vm_compute; reflexivity. Qed.

(** ** The retry loop *)

Lemma randint_bounds (a b raw : Z) :
  a <= b -> a <= randint a b raw <= b.
Proof.
  intros H. unfold randint.
  pose proof (Z.mod_pos_bound raw (b - a + 1)). lia.
Qed.

Lemma delays_bounds (r : Retrying) (rng : nat -> Z) (start n : nat) :
  wait_random_min r <= wait_random_max r ->
  length (delays r rng start n) = n
  /\ Forall (fun d => wait_random_min r <= d <= wait_random_max r)
            (delays r rng start n).
Proof.
  intros H. unfold delays. split.
  - rewrite length_map, length_seq. reflexivity.
  - apply List.Forall_forall. intros d Hd.
    apply in_map_iff in Hd. destruct Hd as (i & <- & _).
    apply randint_bounds, H.
Qed.

Lemma retried_0 (r : Retrying) (sch : scheduler) : retried r sch 0 = sch.
Proof.
  destruct sch. unfold retried, delays. simpl.
  rewrite !Nat.add_0_r, app_nil_r. reflexivity.
Qed.

Lemma retried_S (r : Retrying) (sch : scheduler) (n : nat) :
  retried r (sleep_random r sch) n = retried r sch (S n).
Proof.
  unfold retried, sleep_random, delays. simpl.
  rewrite <- app_assoc. simpl. f_equal; lia.
Qed.

(** The loop stops at the first call that does not raise, or at the last
    call it is allowed; [j] is the number of that call, counting from 0. *)
Lemma attempts_shape {S A} (r : Retrying) (k : nat) (fn : prog S A) (s : S)
  (sch : scheduler) :
  exists j : nat,
    (j <= k)%nat
    /\ attempts r k fn s sch
       = (outcome fn j s, (after fn (Datatypes.S j) s, retried r sch j))
    /\ (forall i, (i < j)%nat -> is_ok (outcome fn i s) = false)
    /\ ((j < k)%nat -> is_ok (outcome fn j s) = true).
Proof.
  revert s sch. induction k as [|k IH]; intros s sch.
  - exists 0%nat. split; [lia|]. split; [|split; intros; lia].
    simpl. unfold outcome. simpl. rewrite retried_0.
    destruct (fn s) as [[v|e] s1]; reflexivity.
  - simpl. destruct (fn s) as [[v|e] s1] eqn:Hfn.
    + exists 0%nat. split; [lia|]. split; [|split].
      * unfold outcome. simpl. rewrite Hfn, retried_0. reflexivity.
      * intros i Hi. lia.
      * intros _. unfold outcome. simpl. rewrite Hfn. reflexivity.
    + destruct (IH s1 (sleep_random r sch)) as (j & Hj & Heq & Hfail & Hok).
      exists (Datatypes.S j). split; [lia|]. split; [|split].
      * rewrite Heq, retried_S. unfold outcome. simpl. rewrite Hfn.
        reflexivity.
      * intros [|i] Hi.
        -- unfold outcome. simpl. rewrite Hfn. reflexivity.
        -- unfold outcome. simpl. rewrite Hfn. apply Hfail. lia.
      * intros Hlt. unfold outcome. simpl. rewrite Hfn. apply Hok. lia.
Qed.

Lemma call_shape {S A} (r : Retrying) (fn : prog S A) (s : S) (sch : scheduler) :
  exists j : nat,
    (j <= stop_max_attempt_number r - 1)%nat
    /\ call r fn (s, sch)
       = (outcome fn j s,
          (after fn (Datatypes.S j) s,
           mk_scheduler (rng sch) (draws sch + j)
             (slept sch ++ delays r (rng sch) (draws sch) j) (Datatypes.S j)))
    /\ (forall i, (i < j)%nat -> is_ok (outcome fn i s) = false)
    /\ ((j < stop_max_attempt_number r - 1)%nat ->
        is_ok (outcome fn j s) = true).
Proof.
  unfold call.
  destruct (attempts_shape r (stop_max_attempt_number r - 1) fn s
              (mk_scheduler (rng sch) (draws sch) (slept sch) 1))
    as (j & Hj & Heq & Hfail & Hok).
  exists j. split; [exact Hj|]. split; [|split; assumption].
  rewrite Heq. reflexivity.
Qed.

(** C5: under [stop_max_attempt_number=7, wait_random_min=1000,
    wait_random_max=2000] the function is called between one and seven
    times, with one delay of 1000 to 2000 ms before each call after the
    first; when the first six calls raise and the seventh returns, its
    value is returned; when seven calls raise, the seventh failure is
    raised and there is no eighth call. *)
Theorem call_seven_attempts {S A} (fn : prog S A) (s : S) (sch : scheduler) :
  (exists n waits,
      (1 <= n <= 7)%nat
      /\ snd (call run_retry fn (s, sch))
         = (after fn n s,
            mk_scheduler (rng sch) (draws sch + (n - 1)) (slept sch ++ waits) n)
      /\ length waits = (n - 1)%nat
      /\ Forall (fun d => 1000 <= d <= 2000) waits)
  /\ (forall v,
        (forall i, (i < 6)%nat -> is_ok (outcome fn i s) = false) ->
        outcome fn 6 s = Ok v ->
        fst (call run_retry fn (s, sch)) = Ok v
        /\ fst (snd (call run_retry fn (s, sch))) = after fn 7 s
        /\ attempt_number (snd (snd (call run_retry fn (s, sch)))) = 7%nat)
  /\ ((forall i, (i < 7)%nat -> is_ok (outcome fn i s) = false) ->
      exists e,
        outcome fn 6 s = Raise e
        /\ fst (call run_retry fn (s, sch)) = Raise e
        /\ fst (snd (call run_retry fn (s, sch))) = after fn 7 s
        /\ attempt_number (snd (snd (call run_retry fn (s, sch)))) = 7%nat).
Proof.
  destruct (call_shape run_retry fn s sch) as (j & Hj & Heq & Hfail & Hok).
  simpl in Hj, Hok.
  assert (Hsix : (forall i, (i < 6)%nat -> is_ok (outcome fn i s) = false) ->
                 j = 6%nat).
  { intros H. destruct (Nat.eq_dec j 6%nat) as [|Hne]; [assumption|].
    assert (Hlt : (j < 6)%nat) by lia.
    specialize (Hok Hlt). rewrite (H j Hlt) in Hok. discriminate. }
  split; [|split].
  - exists (Datatypes.S j), (delays run_retry (rng sch) (draws sch) j).
    destruct (delays_bounds run_retry (rng sch) (draws sch) j) as [Hlen Hall];
      [simpl; lia|].
    split; [lia|]. rewrite Heq. simpl.
    replace (j - 0)%nat with j by lia.
    split; [reflexivity|]. split; assumption.
  - intros v H Hv. rewrite Heq. rewrite (Hsix H). simpl.
    split; [exact Hv|]. split; reflexivity.
  - intros H.
    assert (H6 : forall i, (i < 6)%nat -> is_ok (outcome fn i s) = false)
      by (intros i Hi; apply H; lia).
    rewrite Heq. rewrite (Hsix H6). simpl.
    specialize (H 6%nat ltac:(lia)).
    destruct (outcome fn 6 s) as [v|e] eqn:Hout; [discriminate|].
    exists e. repeat split; reflexivity.
Qed.

Lemma call_seven_attempts_witness :
  (fst (call run_retry (Sample.fails_until 6) (0%nat, Sample.scheduler0)) = Ok 6%nat
   /\ fst (snd (call run_retry (Sample.fails_until 6) (0%nat, Sample.scheduler0)))
      = 7%nat)
  /\ (exists e,
        fst (call run_retry (Sample.fails_until 100) (0%nat, Sample.scheduler0))
        = Raise e
        /\ fst (snd (call run_retry (Sample.fails_until 100)
                       (0%nat, Sample.scheduler0)))
           = 7%nat).
Proof.
  split.
  - destruct (proj1 (proj2 (call_seven_attempts (Sample.fails_until 6) 0%nat
                              Sample.scheduler0)) 6%nat) as (Hv & Hs & _).
    + intros i Hi.
      do 6 (destruct i as [|i]; [reflexivity|]). lia.
    + reflexivity.
    + split; [exact Hv|exact Hs].
  - destruct (proj2 (proj2 (call_seven_attempts (Sample.fails_until 100) 0%nat
                              Sample.scheduler0))) as (e & _ & He & Hs & _).
    + intros i Hi.
      do 7 (destruct i as [|i]; [reflexivity|]). lia.
    + exists e. split; [exact He|exact Hs].
Defined.

(** ** The pipeline *)

Section Run.

Variable json_loads : string -> except pyvalue.
Variable float_utcfromtimestamp : pyfloat -> except datetime.
Variable frame_of_other : pyvalue -> except DataFrame.
Variable to_csv_text : DataFrame -> string.

Local Abbreviation body :=
  (run_body json_loads float_utcfromtimestamp frame_of_other to_csv_text).
Local Abbreviation fetch :=
  (fetch_and_build json_loads float_utcfromtimestamp frame_of_other).

(** All the ways through one attempt. *)
Ltac attempt_cases self w :=
  unfold run_body, fetch_and_build, get_api_data, save_data, to_csv,
    build_dataframe, pbind, pret; simpl;
  destruct (data self) eqn:?; simpl;
  try destruct (net w (requests w) (url self)) eqn:?; simpl;
  try destruct (parse_api_data_text json_loads self _) eqn:?; simpl;
  try destruct (build_table float_utcfromtimestamp frame_of_other _) eqn:?;
  simpl;
  try match goal with |- context [if ?b then _ else _] =>
        is_var b; destruct b end; simpl;
  try rewrite_data;
  try destruct (destination self) eqn:?; simpl;
  try destruct (disk w (writes w) _) eqn:?; simpl
with rewrite_data :=
  match goal with H : data ?s = _ |- context [data ?s] => rewrite H end.

(** An attempt that finds no table begins with a GET; one that finds a
    table makes none and keeps the table. *)
Lemma body_requests (save : bool) (self : CryptoData) (w : world) :
  match data self with
  | None =>
      requests (snd (snd (body save (self, w)))) = S (requests w)
  | Some df =>
      requests (snd (snd (body save (self, w)))) = requests w
      /\ data (fst (snd (body save (self, w)))) = Some df
  end.
Proof. attempt_cases self w; auto. Qed.

Lemma body_failure_before_table (save : bool) (self : CryptoData) (w : world) :
  data (fst (snd (body save (self, w)))) = None ->
  data self = None
  /\ writes (snd (snd (body save (self, w)))) = writes w
  /\ exists e, fst (body save (self, w)) = Raise e.
Proof. attempt_cases self w; intros; try congruence; eauto. Qed.

(** With a table in [self.data], an attempt of [run(save=True)] is one
    call of [to_csv] and nothing else. *)
Lemma body_with_table (self : CryptoData) (w : world) (df : DataFrame) :
  data self = Some df ->
  body true (self, w)
  = match to_csv to_csv_text df (destination self) w with
    | (Ok _, w') => (Ok RetSelf, (self, w'))
    | (Raise e, w') => (Raise e, (self, w'))
    end.
Proof.
  intros H. unfold run_body, pbind, save_data, pret. simpl. rewrite H.
  simpl. rewrite H.
  destruct (to_csv to_csv_text df (destination self) w) as [[v|e] w'];
    reflexivity.
Qed.

Lemma body_writes (self : CryptoData) (w : world) (df : DataFrame) (p : string) :
  data self = Some df -> destination self = Some p ->
  writes (snd (snd (body true (self, w)))) = S (writes w)
  /\ destination (fst (snd (body true (self, w)))) = Some p.
Proof.
  intros Hd Hp. rewrite (body_with_table self w df Hd). unfold to_csv.
  rewrite Hp. destruct (disk w (writes w) p); simpl; auto.
Qed.

Lemma body_no_destination (self : CryptoData) (w : world) :
  destination self = None ->
  files (snd (snd (body true (self, w)))) = files w
  /\ writes (snd (snd (body true (self, w)))) = writes w
  /\ destination (fst (snd (body true (self, w)))) = None
  /\ (fst (body true (self, w)) = Ok RetSelf
      <-> data (fst (snd (body true (self, w)))) <> None).
Proof.
  intros Hdest.
  unfold run_body, fetch_and_build, get_api_data, save_data, to_csv,
    build_dataframe, pbind, pret; simpl.
  destruct (data self) eqn:Hdata; simpl.
  - rewrite Hdata, Hdest. simpl. rewrite Hdata. intuition congruence.
  - destruct (net w (requests w) (url self)); simpl;
      [|rewrite Hdata; intuition congruence].
    destruct (parse_api_data_text json_loads self _); simpl;
      [|rewrite Hdata; intuition congruence].
    destruct (build_table float_utcfromtimestamp frame_of_other _); simpl;
      [|rewrite Hdata; intuition congruence].
    rewrite Hdest. simpl. intuition congruence.
Qed.

Lemma body_raised (save : bool) (st : state) :
  data (fst (snd (body save st))) = None ->
  exists e, fst (body save st) = Raise e.
Proof.
  destruct st as [self w]. intros H.
  apply (body_failure_before_table save self w H).
Qed.

Lemma body_no_destination_st (st : state) :
  destination (fst st) = None ->
  files (snd (snd (body true st))) = files (snd st)
  /\ writes (snd (snd (body true st))) = writes (snd st)
  /\ destination (fst (snd (body true st))) = None
  /\ (fst (body true st) = Ok RetSelf
      <-> data (fst (snd (body true st))) <> None).
Proof. destruct st as [self w]. apply body_no_destination. Qed.

(** *** Several attempts in a row *)

Lemma after_last {S A} (fn : prog S A) (n : nat) (s : S) :
  after fn (Datatypes.S n) s = snd (fn (after fn n s)).
Proof.
  revert s. induction n as [|n IH]; intros s; [reflexivity|].
  change (after fn (Datatypes.S (Datatypes.S n)) s)
    with (after fn (Datatypes.S n) (snd (fn s))).
  rewrite IH. reflexivity.
Qed.

Lemma after_with_table (save : bool) (n : nat) (st : state) (df : DataFrame) :
  data (fst st) = Some df ->
  data (fst (after (body save) n st)) = Some df
  /\ requests (snd (after (body save) n st)) = requests (snd st).
Proof.
  revert st. induction n as [|n IH]; intros [self w] H; simpl in *; [auto|].
  pose proof (body_requests save self w) as Hb.
  rewrite H in Hb. destruct Hb as [Hreq Hdata].
  destruct (IH _ Hdata) as [IH1 IH2].
  split; [exact IH1|]. rewrite IH2. exact Hreq.
Qed.

Lemma after_without_table (save : bool) (n : nat) (st : state) :
  data (fst (after (body save) n st)) = None ->
  data (fst st) = None
  /\ requests (snd (after (body save) n st)) = (requests (snd st) + n)%nat
  /\ writes (snd (after (body save) n st)) = writes (snd st).
Proof.
  revert st. induction n as [|n IH]; intros [self w] H; simpl in *.
  - split; [exact H|]. split; [lia|reflexivity].
  - destruct (IH _ H) as (Hnone & Hreq & Hwr).
    destruct (body save (self, w)) as [r [self1 w1]] eqn:Hbody.
    pose proof (body_requests save self w) as Hb.
    pose proof (body_failure_before_table save self w) as Hf.
    rewrite Hbody in Hb, Hf. simpl in *.
    destruct (Hf Hnone) as (Hdata & Hw1 & _).
    rewrite Hdata in Hb.
    split; [exact Hdata|]. split; [rewrite Hreq, Hb; lia|].
    rewrite Hwr. exact Hw1.
Qed.

Lemma after_requests (save : bool) (n : nat) (st : state) :
  (requests (snd st) <= requests (snd (after (body save) n st))
   <= requests (snd st) + n)%nat.
Proof.
  revert st. induction n as [|n IH]; intros [self w]; simpl; [lia|].
  pose proof (body_requests save self w) as Hb.
  specialize (IH (snd (body save (self, w)))).
  destruct (data self); [destruct Hb as [Hb _]|]; lia.
Qed.

Lemma after_writes (n : nat) (st : state) (df : DataFrame) (p : string) :
  data (fst st) = Some df -> destination (fst st) = Some p ->
  writes (snd (after (body true) n st)) = (writes (snd st) + n)%nat.
Proof.
  revert st. induction n as [|n IH]; intros [self w] Hd Hp; simpl in *; [lia|].
  destruct (body_writes self w df p Hd Hp) as [Hw Hp'].
  pose proof (body_requests true self w) as Hb.
  rewrite Hd in Hb. destruct Hb as [_ Hd'].
  rewrite (IH _ Hd' Hp'), Hw. lia.
Qed.

Lemma after_no_destination (n : nat) (st : state) :
  destination (fst st) = None ->
  files (snd (after (body true) n st)) = files (snd st)
  /\ writes (snd (after (body true) n st)) = writes (snd st)
  /\ destination (fst (after (body true) n st)) = None.
Proof.
  revert st. induction n as [|n IH]; intros [self w] H; simpl in *; [auto|].
  destruct (body_no_destination self w H) as (Hf & Hw & Hd & _).
  destruct (IH _ Hd) as (IHf & IHw & IHd).
  rewrite IHf, IHw. auto.
Qed.

Lemma to_csv_overwrites (df : DataFrame) (p : string) (w : world) :
  match to_csv to_csv_text df (Some p) w with
  | (Ok _, w') =>
      files w' = <[p := to_csv_text df]> (files w)
      /\ files w' !! p = Some (to_csv_text df)
  | (Raise _, w') => files w' = files w
  end.
Proof.
  unfold to_csv. destruct (disk w (writes w) p); simpl; [|reflexivity].
  split; [reflexivity|]. apply lookup_insert_eq.
Qed.

(** C1, with the guard on [self.data]: the attempts of [run] that find no table in
    [self.data] each start with a GET, so as long as fetching, parsing or
    building fails every retry starts again from the network call.  An
    attempt that finds a table makes no GET and leaves the table as it
    is: with a destination it only calls [to_csv] again.  A successful
    [to_csv] makes the text of the table the whole content of the
    destination, whatever was there before. *)
Theorem run_restarts_until_table_built
  (save : bool) (self : CryptoData) (w : world) (sch : scheduler) :
  let result :=
    run json_loads float_utcfromtimestamp frame_of_other to_csv_text save
      ((self, w), sch) in
  let self' := fst (fst (snd result)) in
  let w' := snd (fst (snd result)) in
  let n := attempt_number (snd (snd result)) in
  (data self' = None ->
     data self = None
     /\ requests w' = (requests w + n)%nat
     /\ writes w' = writes w
     /\ exists e, fst result = Raise e)
  /\ (forall df, data self = Some df ->
        data self' = Some df
        /\ requests w' = requests w
        /\ (forall p, save = true -> destination self = Some p ->
              writes w' = (writes w + n)%nat))
  /\ (requests w <= requests w' <= requests w + n)%nat
  /\ (forall df p w0 w1 v,
        to_csv to_csv_text df (Some p) w0 = (Ok v, w1) ->
        files w1 = <[p := to_csv_text df]> (files w0)
        /\ files w1 !! p = Some (to_csv_text df)).
Proof.
  intros result self' w' n. subst result self' w' n. unfold run.
  destruct (@call_shape state run_value run_retry (body save) (self, w) sch)
    as (j & Hj & Heq & _ & _).
  unfold state in *. rewrite Heq. cbn [fst snd attempt_number].
  split; [|split; [|split]].
  - intros Hnone.
    destruct (after_without_table save (Datatypes.S j) (self, w) Hnone)
      as (H1 & H2 & H3).
    split; [exact H1|]. split; [exact H2|]. split; [exact H3|].
    rewrite after_last in Hnone.
    exact (body_raised save _ Hnone).
  - intros df Hdf.
    destruct (after_with_table save (Datatypes.S j) (self, w) df Hdf)
      as [H1 H2].
    split; [exact H1|]. split; [exact H2|].
    intros p -> Hp.
    apply (after_writes (Datatypes.S j) (self, w) df p Hdf Hp).
  - apply (after_requests save (Datatypes.S j) (self, w)).
  - intros df p w0 w1 v H.
    pose proof (to_csv_overwrites df p w0) as Ho. rewrite H in Ho. exact Ho.
Qed.

Lemma body_first_ok (self : CryptoData) (w : world) :
  destination self = None ->
  data self <> None \/ fst (fetch (self, w)) = Ok tt ->
  fst (body true (self, w)) = Ok RetSelf.
Proof.
  intros Hdest H.
  apply (body_no_destination self w Hdest).
  pose proof (body_requests true self w) as Hb.
  destruct (data self) as [df|] eqn:Hdata.
  - destruct Hb as [_ Hb]. rewrite Hb. discriminate.
  - destruct H as [H|H]; [congruence|].
    revert H.
    unfold run_body, fetch_and_build, get_api_data, save_data, to_csv,
      build_dataframe, pbind, pret; simpl.
    rewrite Hdata. simpl.
    destruct (net w (requests w) (url self)); simpl; [|discriminate].
    destruct (parse_api_data_text json_loads self _); simpl; [|discriminate].
    destruct (build_table float_utcfromtimestamp frame_of_other _); simpl;
      [|discriminate].
    rewrite Hdest. simpl. discriminate.
Qed.

(** C10: the destination is [None] unless the caller gives one, and then
    [to_csv] returns the text instead of writing it, [save_data] drops
    it, and [run(save=True)] leaves the files as they were; it returns
    the object as soon as the table is there, in the first attempt when
    the table was there already or the first fetch gives one. *)
Theorem run_without_destination
  (self : CryptoData) (w : world) (sch : scheduler) :
  destination self = None ->
  let result :=
    run json_loads float_utcfromtimestamp frame_of_other to_csv_text true
      ((self, w), sch) in
  let self' := fst (fst (snd result)) in
  let w' := snd (fst (snd result)) in
  arg_destination default_args = None
  /\ (forall mc a new, __init__ mc a = Ok new ->
        destination new = arg_destination a)
  /\ (forall df w0,
        to_csv to_csv_text df None w0 = (Ok (Some (to_csv_text df)), w0)
        /\ save_data to_csv_text (Some df) (self, w0) = (Ok tt, (self, w0)))
  /\ files w' = files w
  /\ writes w' = writes w
  /\ (fst result = Ok RetSelf <-> data self' <> None)
  /\ (data self <> None \/ fst (fetch (self, w)) = Ok tt ->
      fst result = Ok RetSelf
      /\ attempt_number (snd (snd result)) = 1%nat).
Proof.
  intros Hdest result self' w'. subst result self' w'. unfold run.
  destruct (@call_shape state run_value run_retry (body true) (self, w) sch)
    as (j & Hj & Heq & Hfail & _).
  unfold state in *. rewrite Heq. cbn [fst snd attempt_number].
  split; [reflexivity|].
  split; [intros mc a new H; apply (construct_fields mc a new H)|].
  split.
  { intros df w0. unfold save_data, to_csv. rewrite Hdest. split; reflexivity. }
  destruct (after_no_destination j (self, w) Hdest) as (Hf & Hw & Hd).
  rewrite after_last. unfold outcome.
  destruct (body_no_destination_st _ Hd) as (Hf' & Hw' & _ & Hiff).
  split; [|split; [|split]].
  - exact (eq_trans Hf' Hf).
  - exact (eq_trans Hw' Hw).
  - exact Hiff.
  - intros Hfirst.
    pose proof (body_first_ok self w Hdest Hfirst) as Hok.
    assert (j = 0%nat) as ->.
    { destruct j as [|j]; [reflexivity|].
      specialize (Hfail 0%nat ltac:(lia)).
      change (is_ok (fst (body true (self, w))) = false) in Hfail.
      rewrite Hok in Hfail. discriminate. }
    split; [exact Hok|reflexivity].
Qed.

End Run.

Lemma run_restarts_until_table_built_witness :
  (let result :=
     run Sample.json_loads Sample.float_utcfromtimestamp Sample.frame_of_other
       Sample.to_csv_text true
       ((Sample.client (Some Sample.path), Sample.dead_net),
        Sample.scheduler0) in
   requests (snd (fst (snd result))) = 7%nat
   /\ exists e, fst result = Raise e)
  /\ (let result :=
        run Sample.json_loads Sample.float_utcfromtimestamp
          Sample.frame_of_other Sample.to_csv_text true
          ((Sample.client_with_table, Sample.flaky_disk), Sample.scheduler0) in
      requests (snd (fst (snd result))) = 0%nat
      /\ writes (snd (fst (snd result))) = 2%nat)
  /\ files (snd (to_csv Sample.to_csv_text Sample.table (Some Sample.path)
                   Sample.old_file)) !! Sample.path
     = Some (Sample.to_csv_text Sample.table).
Proof.
  split; [|split].
  - destruct (run_restarts_until_table_built Sample.json_loads
                Sample.float_utcfromtimestamp Sample.frame_of_other
                Sample.to_csv_text true (Sample.client (Some Sample.path))
                Sample.dead_net Sample.scheduler0)
      as (Hnone & _).
    destruct (Hnone ltac:(vm_compute; reflexivity)) as (_ & Hreq & _ & He).
    split; [|exact He].
    cbv zeta. rewrite Hreq. vm_compute. reflexivity.
  - destruct (run_restarts_until_table_built Sample.json_loads
                Sample.float_utcfromtimestamp Sample.frame_of_other
                Sample.to_csv_text true Sample.client_with_table
                Sample.flaky_disk Sample.scheduler0)
      as (_ & Htable & _).
    destruct (Htable Sample.table eq_refl) as (_ & Hreq & Hwr).
    split; [exact Hreq|].
    cbv zeta. rewrite (Hwr Sample.path eq_refl eq_refl). vm_compute. reflexivity.
  - destruct (run_restarts_until_table_built Sample.json_loads
                Sample.float_utcfromtimestamp Sample.frame_of_other
                Sample.to_csv_text true Sample.client_with_table
                Sample.flaky_disk Sample.scheduler0)
      as (_ & _ & _ & Hover).
    apply (Hover Sample.table Sample.path Sample.old_file _ None).
    reflexivity.
Defined.

(** A disk that refuses the first write: the first attempt fetches, builds
    the table and fails in [to_csv]; the second attempt finds the table and
    only writes.  Two attempts, one GET. *)
Lemma run_restarts_counterexample :
  let result :=
    run Sample.json_loads Sample.float_utcfromtimestamp Sample.frame_of_other
      Sample.to_csv_text true
      ((Sample.client (Some Sample.path), Sample.flaky_disk),
       Sample.scheduler0) in
  fst result = Ok RetSelf
  /\ attempt_number (snd (snd result)) = 2%nat
  /\ requests (snd (fst (snd result))) = 1%nat
  /\ writes (snd (fst (snd result))) = 2%nat.
Proof. vm_compute. repeat split; reflexivity. Qed.

Lemma run_without_destination_witness :
  (let result :=
     run Sample.json_loads Sample.float_utcfromtimestamp Sample.frame_of_other
       Sample.to_csv_text true
       ((Sample.client None, Sample.flaky_disk), Sample.scheduler0) in
   files (snd (fst (snd result))) = ∅
   /\ writes (snd (fst (snd result))) = 0%nat
   /\ fst result = Ok RetSelf
   /\ attempt_number (snd (snd result)) = 1%nat)
  /\ (let result :=
        run Sample.json_loads Sample.float_utcfromtimestamp
          Sample.frame_of_other Sample.to_csv_text true
          ((Sample.client None, Sample.flaky_net), Sample.scheduler0) in
      files (snd (fst (snd result))) = ∅ /\ fst result = Ok RetSelf).
Proof.
  split.
  - destruct (run_without_destination Sample.json_loads
                Sample.float_utcfromtimestamp Sample.frame_of_other
                Sample.to_csv_text (Sample.client None) Sample.flaky_disk
                Sample.scheduler0 eq_refl)
      as (_ & _ & _ & Hf & Hw & _ & Hfirst).
    split; [exact Hf|]. split; [exact Hw|].
    apply Hfirst. right. vm_compute. reflexivity.
  - destruct (run_without_destination Sample.json_loads
                Sample.float_utcfromtimestamp Sample.frame_of_other
                Sample.to_csv_text (Sample.client None) Sample.flaky_net
                Sample.scheduler0 eq_refl)
      as (_ & _ & _ & Hf & _ & Hiff & _).
    split; [exact Hf|].
    apply Hiff. vm_compute. discriminate.
Defined.

(** * More properties *)

(** ** The calendar *)

Ltac div_lia := Z.to_euclidean_division_equations; lia.

Ltac split_ifs :=
  repeat match goal with
  | |- context [if ?a <? ?b then _ else _] => destruct (Z.ltb_spec a b)
  | |- context [if ?a <=? ?b then _ else _] => destruct (Z.leb_spec a b)
  end.

(** Day number to date and back. *)
Lemma civil_from_days_inverse (z : Z) :
  let '(y, m, d) := Calendar.civil_from_days z in
  Calendar.days_from_civil y m d = z.
Proof.
  unfold Calendar.civil_from_days, Calendar.days_from_civil.
  set (z' := z + 719468).
  set (era := z' / 146097).
  set (doe := z' - era * 146097).
  assert (Hdoe : 0 <= doe <= 146096) by (subst doe era; div_lia).
  set (yoe := (doe - doe / 1460 + doe / 36524 - doe / 146096) / 365).
  set (doy := doe - (365 * yoe + yoe / 4 - yoe / 100)).
  assert (Hy : 0 <= yoe <= 399 /\ 0 <= doy <= 365) by (subst yoe doy; div_lia).
  set (mp := (5 * doy + 2) / 153).
  assert (Hmp : 0 <= mp <= 11) by (subst mp; div_lia).
  set (d := doy - (153 * mp + 2) / 5 + 1).
  destruct (Z.ltb_spec mp 10) as [Hlt|Hge].
  - replace (mp + 3 <=? 2) with false by (symmetry; apply Z.leb_gt; lia).
    replace (2 <? mp + 3) with true by (symmetry; apply Z.ltb_lt; lia).
    replace (mp + 3 - 3) with mp by lia.
    replace ((yoe + era * 400) / 400) with era by div_lia.
    replace (yoe + era * 400 - era * 400) with yoe by lia.
    subst d doy doe z'. lia.
  - replace (mp - 9 <=? 2) with true by (symmetry; apply Z.leb_le; lia).
    replace (2 <? mp - 9) with false by (symmetry; apply Z.ltb_ge; lia).
    replace (mp - 9 + 9) with mp by lia.
    replace (yoe + era * 400 + 1 - 1) with (yoe + era * 400) by lia.
    replace ((yoe + era * 400) / 400) with era by div_lia.
    replace (yoe + era * 400 - era * 400) with yoe by lia.
    subst d doy doe z'. lia.
Qed.

(** Every day number is a real date. *)
Lemma civil_from_days_valid (z : Z) :
  let '(y, m, d) := Calendar.civil_from_days z in
  1 <= m <= 12 /\ 1 <= d <= Calendar.days_in_month y m.
Proof.
  unfold Calendar.civil_from_days.
  generalize (z + 719468). clear z. intros z.
  set (era := z / 146097).
  set (doe := z - era * 146097).
  assert (Hdoe : 0 <= doe <= 146096) by (subst doe era; div_lia).
  clearbody doe era. clear z.
  set (yoe := (doe - doe / 1460 + doe / 36524 - doe / 146096) / 365).
  set (doy := doe - (365 * yoe + yoe / 4 - yoe / 100)).
  assert (Hy : 0 <= yoe <= 399 /\ 0 <= doy <= 365) by (subst yoe doy; div_lia).
  assert (Hleap : doy = 365 ->
                  (yoe + 1) mod 4 = 0
                  /\ ((yoe + 1) mod 100 <> 0 \/ yoe + 1 = 400))
    by (subst doy yoe; div_lia).
  clearbody doy yoe. clear Hdoe doe.
  set (mp := (5 * doy + 2) / 153).
  assert (Hmp : 0 <= mp <= 11) by (subst mp; div_lia).
  assert (Hdoy : 153 * mp <= 5 * doy + 2 < 153 * mp + 153)
    by (subst mp; div_lia).
  clearbody mp.
  unfold Calendar.days_in_month, Calendar.is_leap.
  assert (Hcases : mp = 0 \/ mp = 1 \/ mp = 2 \/ mp = 3 \/ mp = 4 \/ mp = 5
                   \/ mp = 6 \/ mp = 7 \/ mp = 8 \/ mp = 9 \/ mp = 10
                   \/ mp = 11) by lia.
  destruct Hcases as [->|[->|[->|[->|[->|[->|[->|[->|[->|[->|[->| ->]]]]]]]]]]];
    simpl; try div_lia.
  set (d := doy - (153 * 11 + 2) / 5 + 1).
  assert (Hd : 1 <= d <= 29 /\ (d = 29 -> doy = 365)) by (subst d; div_lia).
  clearbody d.
  split; [lia|].
  destruct (Z.eqb_spec ((yoe + era * 400 + 1) mod 4) 0) as [H4|H4]; simpl.
  - destruct (Z.eqb_spec ((yoe + era * 400 + 1) mod 100) 0) as [H100|H100];
      simpl; [|lia].
    destruct (Z.eqb_spec ((yoe + era * 400 + 1) mod 400) 0) as [H400|H400];
      simpl; [lia|].
    assert (d <> 29); [|lia].
    intros ->. destruct Hd as [_ H29]. specialize (Hleap (H29 eq_refl)).
    div_lia.
  - assert (d <> 29); [|lia].
    intros ->. destruct Hd as [_ H29]. specialize (Hleap (H29 eq_refl)).
    div_lia.
Qed.

(** The day after a date is a later date. *)
Lemma civil_from_days_next (z : Z) :
  date_lt (Calendar.civil_from_days z) (Calendar.civil_from_days (z + 1)).
Proof.
  unfold Calendar.civil_from_days, date_lt.
  replace (z + 1 + 719468) with (z + 719468 + 1) by lia.
  generalize (z + 719468). clear z. intros z.
  set (era := z / 146097). set (era' := (z + 1) / 146097).
  set (doe := z - era * 146097). set (doe' := z + 1 - era' * 146097).
  assert (Hcase : (doe < 146096 /\ era' = era /\ doe' = doe + 1)
                  \/ (doe = 146096 /\ era' = era + 1 /\ doe' = 0))
    by (subst doe doe' era era'; div_lia).
  assert (Hdoe : 0 <= doe) by (subst doe era; div_lia).
  clearbody doe doe' era era'. clear z.
  destruct Hcase as [(Hlt & -> & ->)|(Hlast & -> & Hfirst)].
  - set (yoe := (doe - doe / 1460 + doe / 36524 - doe / 146096) / 365).
    set (yoe' := (doe + 1 - (doe + 1) / 1460 + (doe + 1) / 36524
                  - (doe + 1) / 146096) / 365).
    set (doy := doe - (365 * yoe + yoe / 4 - yoe / 100)).
    set (doy' := doe + 1 - (365 * yoe' + yoe' / 4 - yoe' / 100)).
    assert (Hb : 0 <= yoe <= 399 /\ 0 <= doy <= 365)
      by (subst doy yoe; div_lia).
    assert (Hb' : 0 <= yoe' <= 399 /\ 0 <= doy' <= 365)
      by (subst doy' yoe'; div_lia).
    assert (Hstep : yoe' = yoe
                    \/ (yoe' = yoe + 1
                        /\ doe + 1 = 365 * (yoe + 1) + (yoe + 1) / 4
                                      - (yoe + 1) / 100))
      by (subst yoe yoe'; div_lia).
    assert (Hyear : (yoe' = yoe /\ doy' = doy + 1 /\ 0 <= doy < 365)
                    \/ (yoe' = yoe + 1 /\ doy' = 0 /\ 364 <= doy <= 365)).
    { clearbody yoe yoe'. subst doy doy'.
      destruct Hstep as [->|[-> Hs]]; [left|right]; div_lia. }
    clearbody doy doy' yoe yoe'. clear Hstep Hlt Hdoe doe.
    destruct Hyear as [(-> & -> & Hdoy)|(-> & -> & Hdoy)].
    + set (mp := (5 * doy + 2) / 153).
      set (mp' := (5 * (doy + 1) + 2) / 153).
      assert (Hm : (0 <= mp <= 11 /\ 0 <= mp' <= 11)
                   /\ ((mp' = mp /\ doy + 1 - (153 * mp' + 2) / 5 + 1
                                    = doy - (153 * mp + 2) / 5 + 1 + 1)
                       \/ (mp' = mp + 1
                           /\ doy + 1 - (153 * mp' + 2) / 5 + 1 = 1)))
        by (subst mp mp'; div_lia).
      clearbody mp mp'.
      destruct Hm as (Hmp & [(-> & ->)|(-> & ->)]); split_ifs; try lia.
      all: div_lia.
    + assert (H11 : (5 * doy + 2) / 153 = 11) by div_lia.
      rewrite H11. simpl. div_lia.
  - split_ifs; div_lia.
Qed.

Lemma date_lt_trans (a b c : Z * Z * Z) :
  date_lt a b -> date_lt b c -> date_lt a c.
Proof.
  destruct a as [[y m] d], b as [[y' m'] d'], c as [[y'' m''] d''].
  unfold date_lt. lia.
Qed.

Lemma civil_from_days_increasing (a b : Z) :
  a < b -> date_lt (Calendar.civil_from_days a) (Calendar.civil_from_days b).
Proof.
  intros H. replace b with (a + 1 + Z.of_nat (Z.to_nat (b - a - 1))) by lia.
  induction (Z.to_nat (b - a - 1)) as [|n IH].
  - replace (a + 1 + Z.of_nat 0) with (a + 1) by lia.
    apply civil_from_days_next.
  - replace (a + 1 + Z.of_nat (S n)) with (a + 1 + Z.of_nat n + 1) by lia.
    eapply date_lt_trans; [exact IH|apply civil_from_days_next].
Qed.

(** [utcfromtimestamp] and [timegm] are inverse to each other. *)
Lemma timegm_utc_datetime (t : Z) : timegm (utc_datetime t) = t.
Proof.
  unfold timegm, utc_datetime.
  pose proof (civil_from_days_inverse (t / 86400)) as H.
  destruct (Calendar.civil_from_days (t / 86400)) as [[y m] d].
  simpl. rewrite H. div_lia.
Qed.

(** Later timestamps are later datetimes, and only they. *)
Lemma utc_datetime_later (a b : Z) :
  a < b -> datetime_leb (utc_datetime b) (utc_datetime a) = false.
Proof.
  intros Hab. unfold datetime_leb, datetime_key, utc_datetime.
  assert (Hdays : a / 86400 < b / 86400
                  \/ (a / 86400 = b / 86400 /\ a mod 86400 < b mod 86400))
    by div_lia.
  destruct Hdays as [Hlt|[Heq Hrest]].
  - pose proof (civil_from_days_increasing _ _ Hlt) as H.
    destruct (Calendar.civil_from_days (a / 86400)) as [[y m] d].
    destruct (Calendar.civil_from_days (b / 86400)) as [[y' m'] d'].
    unfold date_lt in H. simpl. lia.
  - rewrite Heq.
    destruct (Calendar.civil_from_days (b / 86400)) as [[y m] d]. simpl.
    rewrite !Z.ltb_irrefl, !Z.eqb_refl. simpl.
    set (ra := a mod 86400) in *. set (rb := b mod 86400) in *.
    assert (Hra : 0 <= ra < 86400) by (subst ra; div_lia).
    assert (Hrb : 0 <= rb < 86400) by (subst rb; div_lia).
    clearbody ra rb.
    assert (Htime : ra / 3600 < rb / 3600
                    \/ (ra / 3600 = rb / 3600
                        /\ (ra mod 3600 / 60 < rb mod 3600 / 60
                            \/ (ra mod 3600 / 60 = rb mod 3600 / 60
                                /\ ra mod 60 < rb mod 60))))
      by div_lia.
    lia.
Qed.

Lemma utc_datetime_order (a b : Z) :
  datetime_leb (utc_datetime a) (utc_datetime b) = true <-> a <= b.
Proof.
  split.
  - intros H. destruct (Z.le_gt_cases a b) as [Hle|Hgt]; [exact Hle|].
    rewrite (utc_datetime_later b a) in H by lia. discriminate.
  - intros H. destruct (Z.eq_dec a b) as [->|Hne].
    + destruct (datetime_leb_total (utc_datetime b) (utc_datetime b)); assumption.
    + destruct (datetime_leb_total (utc_datetime a) (utc_datetime b)) as [Ht|Ht];
        [exact Ht|].
      rewrite (utc_datetime_later a b) in Ht by lia. discriminate.
Qed.

(** ** Timestamps *)

(** X1: without a date string [get_timestamp] takes the UTC wall clock
    and reads it as local time: the result is the clock minus the UTC
    offset of the zone, and the clock itself only where that offset is 0. *)
Theorem get_timestamp_now (mc : machine) :
  representable (clock mc) = true ->
  get_timestamp mc None = Ok (clock mc - utcoffset mc (clock mc)).
Proof.
  intros H. unfold get_timestamp, utcfromtimestamp. rewrite H. simpl.
  unfold mktime. rewrite timegm_utc_datetime. reflexivity.
Qed.

Lemma get_timestamp_now_witness :
  get_timestamp Sample.utc_plus_1 None = Ok (1500000000 - 3600).
Proof. apply (get_timestamp_now Sample.utc_plus_1). reflexivity. Defined.

Lemma digit_of_digit_char (k : Z) :
  0 <= k <= 9 -> digit_of (digit_char k) = Some k.
Proof.
  intros H.
  assert (Hk : k = 0 \/ k = 1 \/ k = 2 \/ k = 3 \/ k = 4 \/ k = 5 \/ k = 6
               \/ k = 7 \/ k = 8 \/ k = 9) by lia.
  destruct Hk as [->|[->|[->|[->|[->|[->|[->|[->|[->| ->]]]]]]]]]; reflexivity.
Qed.

Lemma year_field_four_digits (y : Z) (rest : list ascii) :
  0 <= y <= 9999 -> year_field (four_digits y ++ rest) = Some (y, rest).
Proof.
  intros H. unfold four_digits, year_field. cbn [app].
  rewrite !digit_of_digit_char by div_lia.
  f_equal. f_equal. div_lia.
Qed.

Lemma match_ymd_strftime (y m d : Z) :
  0 <= y <= 9999 -> 1 <= m <= 12 -> 1 <= d <= 31 ->
  match_ymd (four_digits y ++ "-"%char :: two_digits m
             ++ "-"%char :: two_digits d)
  = Some (y, m, d, []).
Proof.
  intros Hy Hm Hd. unfold match_ymd.
  rewrite year_field_four_digits by exact Hy.
  assert (Hmc : m = 1 \/ m = 2 \/ m = 3 \/ m = 4 \/ m = 5 \/ m = 6 \/ m = 7
                \/ m = 8 \/ m = 9 \/ m = 10 \/ m = 11 \/ m = 12) by lia.
  assert (Hdc : d = 1 \/ d = 2 \/ d = 3 \/ d = 4 \/ d = 5 \/ d = 6 \/ d = 7
                \/ d = 8 \/ d = 9 \/ d = 10 \/ d = 11 \/ d = 12 \/ d = 13
                \/ d = 14 \/ d = 15 \/ d = 16 \/ d = 17 \/ d = 18 \/ d = 19
                \/ d = 20 \/ d = 21 \/ d = 22 \/ d = 23 \/ d = 24 \/ d = 25
                \/ d = 26 \/ d = 27 \/ d = 28 \/ d = 29 \/ d = 30 \/ d = 31)
    by lia.
  clear Hm Hd.
  repeat (destruct Hmc as [->|Hmc]); try subst m;
    repeat (destruct Hdc as [->|Hdc]); try subst d; reflexivity.
Qed.

(** What [strftime] prints, [strptime] reads back as the same date. *)
Lemma strptime_strftime (d : datetime) :
  1 <= year d <= 9999 -> 1 <= month d <= 12 ->
  1 <= day d <= Calendar.days_in_month (year d) (month d) ->
  strptime_ymd (strftime_ymd d)
  = Ok (mk_datetime (year d) (month d) (day d) 0 0 0 0).
Proof.
  intros Hy Hm Hd. unfold strptime_ymd, strftime_ymd.
  rewrite list_ascii_of_string_of_list_ascii.
  assert (Hd31 : 1 <= day d <= 31).
  { revert Hd. unfold Calendar.days_in_month.
    destruct (month d =? 2); [destruct (Calendar.is_leap (year d))|];
      [lia|lia|].
    destruct ((month d =? 4) || (month d =? 6) || (month d =? 9)
              || (month d =? 11)); lia. }
  rewrite match_ymd_strftime by lia.
  replace (1 <=? year d) with true by (symmetry; apply Z.leb_le; lia).
  replace (day d <=? Calendar.days_in_month (year d) (month d)) with true
    by (symmetry; apply Z.leb_le; lia).
  reflexivity.
Qed.

(** X2: the default of [--start-date] always parses: its timestamp is the
    local midnight of the UTC date thirty days before now. *)
Theorem default_start_date_timestamp (mc : machine) :
  let midnight := (clock mc - 30 * 86400) / 86400 * 86400 in
  1000 <= year (utc_datetime (clock mc - 30 * 86400)) <= 9999 ->
  get_timestamp mc (Some (default_start_date mc))
  = Ok (midnight - utcoffset mc midnight).
Proof.
  intros midnight Hyear. subst midnight.
  unfold get_timestamp, default_start_date.
  set (t := clock mc - 30 * 86400) in *.
  pose proof (civil_from_days_valid (t / 86400)) as Hvalid.
  pose proof (civil_from_days_inverse (t / 86400)) as Hinv.
  assert (Hfields : Calendar.civil_from_days (t / 86400)
                    = (year (utc_datetime t), month (utc_datetime t),
                       day (utc_datetime t))).
  { unfold utc_datetime.
    destruct (Calendar.civil_from_days (t / 86400)) as [[y m] d]. reflexivity. }
  rewrite Hfields in Hvalid, Hinv. cbv beta iota zeta in Hvalid, Hinv.
  clearbody t. destruct Hvalid as [Hm Hd].
  rewrite (strptime_strftime (utc_datetime t) ltac:(lia) Hm Hd).
  cbn [except_bind].
  unfold mktime, timegm. cbn [year month day hour minute second].
  rewrite Hinv.
  replace (t / 86400 * 86400 + 0 * 3600 + 0 * 60 + 0) with (t / 86400 * 86400)
    by lia.
  reflexivity.
Qed.

Lemma default_start_date_timestamp_witness :
  default_start_date Sample.utc_plus_1 = "2017-06-14"%string
  /\ get_timestamp Sample.utc_plus_1 (Some (default_start_date Sample.utc_plus_1))
     = Ok (1497398400 - 3600).
Proof.
  split; [reflexivity|].
  apply (default_start_date_timestamp Sample.utc_plus_1).
  vm_compute. split; discriminate.
Defined.

(** ** More on [build_dataframe] *)

Section MoreTable.

Variable float_utcfromtimestamp : pyfloat -> except datetime.
Variable frame_of_other : pyvalue -> except DataFrame.

Local Abbreviation build :=
  (build_dataframe float_utcfromtimestamp frame_of_other).

Lemma map_except_raises {A B} (f : A -> except B) (l : list A) :
  Exists (fun x => is_ok (f x) = false) l -> is_ok (map_except f l) = false.
Proof.
  induction 1 as [x l Hx|x l _ IH]; simpl.
  - destruct (f x); [discriminate|reflexivity].
  - destruct (f x); [|reflexivity]. simpl.
    destruct (map_except f l); [discriminate|reflexivity].
Qed.

Lemma build_dataframe_keeps_self (parsed_data : pyvalue) (self : CryptoData) :
  is_ok (fst (build parsed_data self)) = false ->
  snd (build parsed_data self) = self.
Proof.
  unfold build_dataframe.
  destruct (build_table _ _ parsed_data); [discriminate|reflexivity].
Qed.

(** X3: on candles [build_dataframe] succeeds exactly when there is at
    least one candle and every date fits a [datetime]; when it fails the
    object, and the table it may already hold, is left as it was. *)
Theorem build_dataframe_succeeds_iff (raws : list RawCandle) (self : CryptoData) :
  (fst (build (raw_candles raws) self) = Ok tt
   <-> raws <> [] /\ Forall (fun c => representable (date c) = true) raws)
  /\ (fst (build (raw_candles raws) self) <> Ok tt ->
      snd (build (raw_candles raws) self) = self).
Proof.
  split.
  - split.
    + intros Hok. destruct raws as [|c raws].
      { discriminate Hok. }
      split; [discriminate|].
      destruct (List.Forall_Exists_dec (fun c => representable (date c) = true)
                  (fun c => bool_dec (representable (date c)) true) (c :: raws))
        as [Hall|Hex]; [exact Hall|exfalso].
      revert Hok. unfold build_dataframe, build_table.
      rewrite pd_DataFrame_raw. cbn [except_bind].
      rewrite (get_column_rows api_columns "date" 0 raw_row _ eq_refl).
      cbn [except_bind].
      assert (Hfail : is_ok (map_except
                (cell_utcfromtimestamp float_utcfromtimestamp)
                (List.map (fun x => nth 0 (cells (raw_row x)) NaN)
                   (indexed (c :: raws)))) = false).
      { apply map_except_raises. apply List.Exists_exists.
        apply List.Exists_exists in Hex. destruct Hex as (x & Hin & Hx).
        destruct (In_nth _ _ x Hin) as (i & Hi & Hnth).
        exists (Obj (PyInt (date x))). split.
        - apply in_map_iff. exists (i, x). split; [reflexivity|].
          unfold indexed.
          replace (i, x) with (nth i (combine (seq 0 (length (c :: raws)))
                                        (c :: raws)) (0%nat, x)).
          + apply nth_In. rewrite length_combine, length_seq. lia.
          + rewrite combine_nth by (rewrite length_seq; reflexivity).
            rewrite seq_nth by exact Hi. rewrite Hnth. reflexivity.
        - simpl. unfold utcfromtimestamp.
          destruct (representable (date x)); [congruence|reflexivity]. }
      destruct (map_except _ _); [discriminate|].
      cbn [except_bind]. discriminate.
    + intros [Hne Hrep]. unfold build_dataframe.
      rewrite (build_table_raw float_utcfromtimestamp frame_of_other raws Hne Hrep).
      reflexivity.
  - intros Hno. apply build_dataframe_keeps_self.
    destruct (fst (build (raw_candles raws) self)) as [[]|e];
      [congruence|reflexivity].
Qed.

Lemma StronglySorted_weaken {A} (R R' : A -> A -> Prop) (l : list A) :
  (forall a b, R a b -> R' a b) -> StronglySorted R l -> StronglySorted R' l.
Proof.
  intros HR. induction 1 as [|x l Hl IH Hx]; constructor; [exact IH|].
  eapply List.Forall_impl; [|exact Hx]. intros y. apply HR.
Qed.

Lemma sort_by_sorted_id {A} (leb : A -> A -> bool) (l : list A) :
  StronglySorted (fun a b => leb a b = true) l -> sort_by leb l = l.
Proof.
  induction 1 as [|x l Hl IH Hx]; simpl; [reflexivity|].
  rewrite IH. destruct Hx as [|y l' Hy _]; simpl; [reflexivity|].
  rewrite Hy. reflexivity.
Qed.

(** X4: the rows of the table are in non-decreasing order of the
    [date] timestamps of the candles they come from. *)
Theorem build_dataframe_sorted_by_date (raws : list RawCandle) (self : CryptoData) :
  raws <> [] ->
  Forall (fun c => representable (date c) = true) raws ->
  exists out : list (nat * RawCandle),
    Permutation out (indexed raws)
    /\ StronglySorted (fun a b => date (snd a) <= date (snd b)) out
    /\ build (raw_candles raws) self
       = (Ok tt, set_data self (Some (mk_frame cols (List.map candle_row out)))).
Proof.
  intros Hne Hrep. exists (sort_by candle_leb (indexed raws)).
  split; [apply sort_by_perm|]. split.
  - eapply StronglySorted_weaken;
      [|apply (sort_by_sorted candle_leb candle_leb_total candle_leb_trans)].
    intros a b H. apply utc_datetime_order. exact H.
  - unfold build_dataframe. rewrite (build_table_raw _ _ raws Hne Hrep).
    reflexivity.
Qed.

(** X5: candles that arrive with strictly increasing dates come out
    in the order they came in, row [i] from candle [i]. *)
Theorem build_dataframe_keeps_sorted_input (raws : list RawCandle)
  (self : CryptoData) :
  raws <> [] ->
  Forall (fun c => representable (date c) = true) raws ->
  StronglySorted (fun a b => date a < date b) raws ->
  build (raw_candles raws) self
  = (Ok tt,
     set_data self (Some (mk_frame cols (List.map candle_row (indexed raws))))).
Proof.
  intros Hne Hrep Hsorted. unfold build_dataframe.
  rewrite (build_table_raw _ _ raws Hne Hrep).
  rewrite sort_by_sorted_id; [reflexivity|].
  unfold indexed. generalize 0%nat. clear Hne Hrep.
  induction Hsorted as [|c l Hl IH Hc]; intros i; simpl; constructor.
  - apply IH.
  - apply List.Forall_forall. intros [j x] Hin.
    apply in_combine_r in Hin.
    unfold candle_leb. simpl. apply utc_datetime_order.
    pose proof (proj1 (List.Forall_forall _ _) Hc x Hin) as Hlt.
    cbv beta in Hlt. lia.
Qed.

End MoreTable.

Lemma as_records_dicts (records : list pydict) :
  as_records (List.map PyDict records) = Some records.
Proof.
  induction records as [|r records IH]; simpl; [reflexivity|].
  rewrite IH. reflexivity.
Qed.

Lemma dict_get_None_keys (key : string) (r : pydict) :
  dict_get key r = None -> ~ In key (List.map fst r).
Proof.
  induction r as [|[k v] r IH]; simpl; [tauto|].
  destruct (String.eqb_spec k key); [discriminate|].
  intros H [Hk|Hin]; [congruence|]. exact (IH H Hin).
Qed.

Lemma column_index_snoc_None (name k : string) (seen : list string) :
  column_index name seen = None -> k <> name ->
  column_index name (seen ++ [k]) = None.
Proof.
  intros Hseen Hk. induction seen as [|c seen IH]; simpl in *.
  - destruct (String.eqb_spec k name); [congruence|reflexivity].
  - destruct (String.eqb c name); [discriminate|].
    destruct (column_index name seen); [discriminate|].
    rewrite IH by reflexivity. reflexivity.
Qed.

Lemma add_keys_None (name : string) (keys seen : list string) :
  column_index name seen = None -> ~ In name keys ->
  column_index name (add_keys seen keys) = None.
Proof.
  revert seen. induction keys as [|k keys IH]; intros seen Hseen Hin; simpl.
  - exact Hseen.
  - apply IH; [|intros H; apply Hin; right; exact H].
    destruct (has_column k seen); [exact Hseen|].
    apply column_index_snoc_None; [exact Hseen|].
    intros ->. apply Hin. left. reflexivity.
Qed.

Lemma record_columns_None (name : string) (records : list pydict) :
  Forall (fun r => dict_get name r = None) records ->
  column_index name (record_columns records) = None.
Proof.
  unfold record_columns. generalize (@nil string) (eq_refl : column_index name [] = None).
  intros seen Hseen H. revert seen Hseen.
  induction H as [|r records Hr _ IH]; intros seen Hseen; simpl; [exact Hseen|].
  apply IH. apply add_keys_None; [exact Hseen|].
  apply dict_get_None_keys, Hr.
Qed.

Section MissingDate.

Variable float_utcfromtimestamp : pyfloat -> except datetime.
Variable frame_of_other : pyvalue -> except DataFrame.

(** X6: when no record of the answer has a [date] key, whatever else
    the records hold and however many there are, [build_dataframe] raises
    [KeyError('date')] and leaves the object as it was. *)
Theorem build_dataframe_without_date (records : list pydict) (self : CryptoData) :
  Forall (fun r => dict_get "date" r = None) records ->
  build_dataframe float_utcfromtimestamp frame_of_other
    (PyList (List.map PyDict records)) self
  = (Raise (KeyError "date"), self).
Proof.
  intros H. unfold build_dataframe, build_table, pd_DataFrame.
  rewrite as_records_dicts. cbn [except_bind].
  unfold get_column, frame_of_records. cbn [columns].
  rewrite (record_columns_None "date" records H). reflexivity.
Qed.

End MissingDate.

Lemma build_dataframe_without_date_witness :
  build_dataframe Sample.float_utcfromtimestamp Sample.frame_of_other
    (PyList [PyDict Scenario.undated; PyDict Scenario.undated])
    Sample.client_with_table
  = (Raise (KeyError "date"), Sample.client_with_table).
Proof.
  apply (build_dataframe_without_date Sample.float_utcfromtimestamp
           Sample.frame_of_other [Scenario.undated; Scenario.undated]).
  repeat constructor.
Defined.

Lemma build_dataframe_succeeds_iff_witness :
  fst (build_dataframe Sample.float_utcfromtimestamp Sample.frame_of_other
         (raw_candles Sample.out_of_order) (Sample.client None)) = Ok tt
  /\ snd (build_dataframe Sample.float_utcfromtimestamp Sample.frame_of_other
            (raw_candles [Sample.candle 1405699200; Sample.candle 1000000000000])
            Sample.client_with_table)
     = Sample.client_with_table.
Proof.
  split.
  - apply (proj1 (build_dataframe_succeeds_iff Sample.float_utcfromtimestamp
                    Sample.frame_of_other Sample.out_of_order
                    (Sample.client None))).
    split; [discriminate|repeat constructor].
  - apply (proj2 (build_dataframe_succeeds_iff Sample.float_utcfromtimestamp
                    Sample.frame_of_other
                    [Sample.candle 1405699200; Sample.candle 1000000000000]
                    Sample.client_with_table)).
    vm_compute. discriminate.
Defined.

Lemma build_dataframe_sorted_by_date_witness :
  exists out : list (nat * RawCandle),
    Permutation out (indexed Sample.out_of_order)
    /\ StronglySorted (fun a b => date (snd a) <= date (snd b)) out
    /\ build_dataframe Sample.float_utcfromtimestamp Sample.frame_of_other
         (raw_candles Sample.out_of_order) (Sample.client None)
       = (Ok tt, set_data (Sample.client None)
                   (Some (mk_frame cols (List.map candle_row out)))).
Proof.
  apply (build_dataframe_sorted_by_date Sample.float_utcfromtimestamp
           Sample.frame_of_other Sample.out_of_order (Sample.client None)).
  - discriminate.
  - repeat constructor.
Defined.

Lemma build_dataframe_keeps_sorted_input_witness :
  build_dataframe Sample.float_utcfromtimestamp Sample.frame_of_other
    (raw_candles Scenario.in_order) (Sample.client None)
  = (Ok tt,
     set_data (Sample.client None)
       (Some (mk_frame cols (List.map candle_row (indexed Scenario.in_order))))).
Proof.
  apply (build_dataframe_keeps_sorted_input Sample.float_utcfromtimestamp
           Sample.frame_of_other Scenario.in_order (Sample.client None)).
  - discriminate.
  - repeat constructor.
  - repeat constructor.
Defined.

(** ** More on [run] *)

Lemma after_preserves {S A} (fn : prog S A) (P : S -> Prop) :
  (forall s, P s -> P (snd (fn s))) ->
  forall n s, P s -> P (after fn n s).
Proof.
  intros Hstep n. induction n as [|n IH]; intros s Hs; simpl; [exact Hs|].
  apply IH, Hstep, Hs.
Qed.

Lemma sum_bounds (lo hi : Z) (l : list Z) :
  Forall (fun d => lo <= d <= hi) l ->
  lo * Z.of_nat (length l) <= fold_right Z.add 0 l <= hi * Z.of_nat (length l).
Proof.
  induction 1 as [|d l Hd _ IH]; simpl length; simpl fold_right; [lia|].
  rewrite Nat2Z.inj_succ. lia.
Qed.

Section MoreRun.

Variable json_loads : string -> except pyvalue.
Variable float_utcfromtimestamp : pyfloat -> except datetime.
Variable frame_of_other : pyvalue -> except DataFrame.
Variable to_csv_text : DataFrame -> string.

Local Abbreviation body :=
  (run_body json_loads float_utcfromtimestamp frame_of_other to_csv_text).
Local Abbreviation run' :=
  (run json_loads float_utcfromtimestamp frame_of_other to_csv_text).

Ltac body_cases self w :=
  unfold run_body, fetch_and_build, get_api_data, save_data, to_csv,
    build_dataframe, pbind, pret; simpl;
  destruct (data self) eqn:?; simpl;
  try destruct (net w (requests w) (url self)) eqn:?; simpl;
  try destruct (parse_api_data_text json_loads self _) eqn:?; simpl;
  try destruct (build_table float_utcfromtimestamp frame_of_other _) eqn:?;
  simpl;
  repeat match goal with
         | H : data ?s = _ |- context [data ?s] => rewrite H; simpl
         end;
  try destruct (destination self) eqn:?; simpl;
  try destruct (disk w (writes w) _) eqn:?; simpl.

(** One attempt changes nothing of the object but [data], and nothing of
    the server and the disk. *)
Lemma body_frame (save : bool) (st : state) :
  fst (snd (body save st)) = set_data (fst st) (data (fst (snd (body save st))))
  /\ net (snd (snd (body save st))) = net (snd st)
  /\ disk (snd (snd (body save st))) = disk (snd st).
Proof.
  destruct st as [self w]. destruct save; body_cases self w;
    repeat split; try reflexivity;
    destruct self; unfold set_data; simpl in *; congruence.
Qed.

Lemma body_unsaved (st : state) :
  files (snd (snd (body false st))) = files (snd st)
  /\ writes (snd (snd (body false st))) = writes (snd st)
  /\ forall v, fst (body false st) = Ok v ->
       exists df, v = RetData (Some df)
                  /\ data (fst (snd (body false st))) = Some df.
Proof.
  destruct st as [self w]. body_cases self w; repeat split; try reflexivity;
    intros v Hv; try discriminate; injection Hv as <-; eauto.
Qed.

(** One attempt of [run(save=True)], written out. *)
Lemma body_true_cases (self : CryptoData) (w : world) :
  let persist (self : CryptoData) (df : DataFrame) (w : world) :=
    match to_csv to_csv_text df (destination self) w with
    | (Ok _, w') => (Ok RetSelf, (self, w'))
    | (Raise e, w') => (Raise e, (self, w'))
    end in
  let w1 := mk_world (files w) (net w) (S (requests w)) (disk w) (writes w) in
  body true (self, w)
  = match data self with
    | Some df => persist self df w
    | None =>
        match net w (requests w) (url self) with
        | Raise e => (Raise e, (self, w1))
        | Ok body =>
            match parse_api_data_text json_loads self (mk_response body) with
            | Raise e => (Raise e, (self, w1))
            | Ok parsed_data =>
                match build_table float_utcfromtimestamp frame_of_other
                        parsed_data with
                | Raise e => (Raise e, (self, w1))
                | Ok table => persist (set_data self (Some table)) table w1
                end
            end
        end
    end.
Proof.
  intros persist w1. subst persist w1.
  unfold run_body, fetch_and_build, get_api_data, save_data, build_dataframe,
    pbind, pret; simpl.
  destruct (data self) eqn:Hdata; simpl.
  - rewrite Hdata.
    destruct (to_csv to_csv_text d (destination self) w) as [[v|e] w'];
      reflexivity.
  - destruct (net w (requests w) (url self)); simpl; [|reflexivity].
    destruct (parse_api_data_text json_loads self _); simpl; [|reflexivity].
    destruct (build_table float_utcfromtimestamp frame_of_other _); simpl;
      [|reflexivity].
    destruct (to_csv to_csv_text _ (destination self) _) as [[v|e] w'];
      reflexivity.
Qed.

Lemma body_saved (st : state) (p : string) :
  destination (fst st) = Some p ->
  destination (fst (snd (body true st))) = Some p
  /\ forall v, fst (body true st) = Ok v ->
       v = RetSelf
       /\ exists df, data (fst (snd (body true st))) = Some df
                     /\ files (snd (snd (body true st))) !! p
                        = Some (to_csv_text df).
Proof.
  destruct st as [self w]. simpl. intros Hp.
  rewrite body_true_cases. unfold to_csv. cbn [destination set_data].
  rewrite Hp.
  destruct (data self) as [df|] eqn:Hdata.
  - destruct (disk w (writes w) p); simpl; (split; [exact Hp|]);
      intros v Hv; [|discriminate]. injection Hv as <-.
    split; [reflexivity|]. exists df. split; [exact Hdata|].
    apply lookup_insert_eq.
  - destruct (net w (requests w) (url self)); simpl;
      [|split; [exact Hp|discriminate]].
    destruct (parse_api_data_text json_loads self _); simpl;
      [|split; [exact Hp|discriminate]].
    destruct (build_table float_utcfromtimestamp frame_of_other _) as [table|];
      simpl; [|split; [exact Hp|discriminate]].
    destruct (disk w (writes w) p); simpl; (split; [exact Hp|]);
      intros v Hv; [|discriminate]. injection Hv as <-.
    split; [reflexivity|]. exists table. split; [reflexivity|].
    apply lookup_insert_eq.
Qed.

(** What [run] returns is the outcome of its last attempt, in the state
    that attempt left. *)
Lemma run_last_attempt (save : bool) (st : state) (sch : scheduler) :
  exists j : nat,
    (j <= 6)%nat
    /\ fst (run' save (st, sch)) = fst (body save (after (body save) j st))
    /\ fst (snd (run' save (st, sch))) = snd (body save (after (body save) j st))
    /\ snd (snd (run' save (st, sch)))
       = mk_scheduler (rng sch) (draws sch + j)
           (slept sch ++ delays run_retry (rng sch) (draws sch) j) (S j)
    /\ (forall i, (i < j)%nat ->
          is_ok (fst (body save (after (body save) i st))) = false)
    /\ ((j < 6)%nat -> is_ok (fst (body save (after (body save) j st))) = true).
Proof.
  unfold run.
  destruct (@call_shape state run_value run_retry (body save) st sch)
    as (j & Hj & Heq & Hfail & Hok).
  exists j. unfold state in *. rewrite Heq. rewrite after_last.
  simpl in Hj. repeat split; try assumption; lia.
Qed.

(** X7: [run(save=False)] never writes: the files are as before,
    whatever the destination.  When it returns, it returns the table that
    is in [self.data]; when the object already holds a table, it returns
    that one in the first attempt, without a request and without a
    sleep. *)
Theorem run_without_save (self : CryptoData) (w : world) (sch : scheduler) :
  let result := run' false ((self, w), sch) in
  let self' := fst (fst (snd result)) in
  let w' := snd (fst (snd result)) in
  files w' = files w
  /\ writes w' = writes w
  /\ (forall v, fst result = Ok v ->
        exists df, v = RetData (Some df) /\ data self' = Some df)
  /\ (forall df, data self = Some df ->
        result = (Ok (RetData (Some df)),
                  ((self, w), mk_scheduler (rng sch) (draws sch) (slept sch) 1))).
Proof.
  intros result self' w'. subst result self' w'.
  destruct (run_last_attempt false (self, w) sch)
    as (j & Hj & Hres & Hst & Hsch & Hfail & Hok).
  unfold state in *.
  assert (Hinv : files (snd (after (body false) j (self, w))) = files w
                 /\ writes (snd (after (body false) j (self, w))) = writes w).
  { apply (after_preserves (body false)
             (fun st => files (snd st) = files w /\ writes (snd st) = writes w));
      [|split; reflexivity].
    intros st [Hf Hw]. destruct (body_unsaved st) as (Hf' & Hw' & _).
    split; [exact (eq_trans Hf' Hf)|exact (eq_trans Hw' Hw)]. }
  destruct (body_unsaved (after (body false) j (self, w))) as (Hf & Hw & Hv).
  rewrite Hst, Hres.
  split; [exact (eq_trans Hf (proj1 Hinv))|].
  split; [exact (eq_trans Hw (proj2 Hinv))|].
  split; [exact Hv|].
  intros df Hdf.
  assert (Hfirst : body false (self, w) = (Ok (RetData (Some df)), (self, w))).
  { unfold run_body, pbind. simpl. rewrite Hdf. simpl. rewrite Hdf. reflexivity. }
  assert (j = 0%nat) as ->.
  { destruct j as [|j]; [reflexivity|].
    specialize (Hfail 0%nat ltac:(lia)). simpl in Hfail.
    rewrite Hfirst in Hfail. discriminate. }
  simpl in Hres, Hst.
  apply injective_projections; [exact (eq_trans Hres (f_equal fst Hfirst))|].
  apply injective_projections; [exact (eq_trans Hst (f_equal snd Hfirst))|].
  etransitivity; [exact Hsch|].
  unfold delays. simpl. rewrite Nat.add_0_r, app_nil_r. reflexivity.
Qed.

Lemma run_saved_file (self : CryptoData) (w : world) (sch : scheduler)
  (p : string) (v : run_value) :
  destination self = Some p ->
  fst (run' true ((self, w), sch)) = Ok v ->
  v = RetSelf
  /\ exists df, data (fst (fst (snd (run' true ((self, w), sch))))) = Some df
                /\ files (snd (fst (snd (run' true ((self, w), sch))))) !! p
                   = Some (to_csv_text df).
Proof.
  intros Hp.
  destruct (run_last_attempt true (self, w) sch)
    as (j & Hj & Hres & Hst & _).
  unfold state in *. rewrite Hres, Hst.
  apply (body_saved (after (body true) j (self, w)) p).
  apply (after_preserves (body true) (fun st => destination (fst st) = Some p));
    [|exact Hp].
  intros st Hd. apply (body_saved st p Hd).
Qed.

(** X8: when [run(save=True)] returns and the object has a
    destination, the file at the destination holds the CSV text of the
    table that is in [self.data]. *)
Theorem run_saves_the_table (self : CryptoData) (w : world) (sch : scheduler)
  (p : string) :
  let result := run' true ((self, w), sch) in
  let self' := fst (fst (snd result)) in
  let w' := snd (fst (snd result)) in
  destination self = Some p ->
  forall v, fst result = Ok v ->
    v = RetSelf
    /\ exists df, data self' = Some df
                  /\ files w' !! p = Some (to_csv_text df).
Proof.
  intros result self' w' Hp v Hv. subst result self' w'.
  exact (run_saved_file self w sch p v Hp Hv).
Qed.

(** X9: [run] sleeps between 1 and 2 seconds before each attempt after
    the first, 12 seconds at most in all; when it raises it has made seven
    attempts and slept six times, 6 seconds at least. *)
Theorem run_sleep_budget (save : bool) (self : CryptoData) (w : world)
  (sch : scheduler) :
  let result := run' save ((self, w), sch) in
  let sch' := snd (snd result) in
  let n := Z.of_nat (attempt_number sch') in
  1 <= n <= 7
  /\ 1000 * (n - 1) <= slept_since sch sch' <= 2000 * (n - 1)
  /\ ((exists e, fst result = Raise e) -> n = 7).
Proof.
  intros result sch' n. subst result sch' n.
  destruct (run_last_attempt save (self, w) sch)
    as (j & Hj & Hres & _ & Hsch & _ & Hok).
  unfold state in *. rewrite Hsch, Hres. cbn [attempt_number].
  unfold slept_since. cbn [slept].
  rewrite skipn_app, skipn_all, Nat.sub_diag.
  destruct (delays_bounds run_retry (rng sch) (draws sch) j) as [Hlen Hall];
    [simpl; lia|].
  pose proof (sum_bounds _ _ _ Hall) as Hsum. rewrite Hlen in Hsum.
  simpl wait_random_min in Hsum. simpl wait_random_max in Hsum.
  cbn [app]. rewrite skipn_O. split; [lia|]. split; [lia|].
  intros [e He].
  destruct (Nat.eq_dec j 6%nat) as [->|Hne]; [reflexivity|].
  rewrite He in Hok. specialize (Hok ltac:(lia)). discriminate.
Qed.

Lemma body_rejected (save : bool) (self : CryptoData) (w : world)
  (text : string) (d : pydict) (err : pyvalue) :
  data self = None ->
  net w (requests w) (url self) = Ok text ->
  json_loads text = Ok (PyDict d) ->
  dict_get "error" d = Some err ->
  exists msg,
    body save (self, w)
    = (Raise (Exception msg),
       (self, mk_world (files w) (net w) (S (requests w)) (disk w) (writes w))).
Proof.
  intros Hdata Hnet Hloads Herr.
  unfold run_body, fetch_and_build, get_api_data, parse_api_data_text, pbind.
  simpl. rewrite Hdata, Hnet. simpl. rewrite Hloads. simpl. rewrite Herr.
  destruct (eq_str err "Invalid currency pair."); eexists; reflexivity.
Qed.

(** X10: an error the API reports is retried like a network failure.
    When every answer is an object with an "error" key, [run] asks seven
    times, raises the [Exception] of the last answer, writes nothing and
    leaves the object as it was. *)
Theorem run_retries_api_errors (save : bool) (self : CryptoData) (w : world)
  (sch : scheduler) :
  let result := run' save ((self, w), sch) in
  let self' := fst (fst (snd result)) in
  let w' := snd (fst (snd result)) in
  data self = None ->
  (forall n, exists text d err,
      net w n (url self) = Ok text
      /\ json_loads text = Ok (PyDict d)
      /\ dict_get "error" d = Some err) ->
  (exists msg, fst result = Raise (Exception msg))
  /\ requests w' = (requests w + 7)%nat
  /\ attempt_number (snd (snd result)) = 7%nat
  /\ files w' = files w
  /\ writes w' = writes w
  /\ self' = self.
Proof.
  intros result self' w' Hdata Hnet. subst result self' w'.
  set (P := fun st : state =>
              fst st = self /\ net (snd st) = net w
              /\ files (snd st) = files w /\ writes (snd st) = writes w).
  assert (Hstep : forall st, P st ->
            P (snd (body save st))
            /\ exists msg, fst (body save st) = Raise (Exception msg)).
  { intros [self0 w0] (Hs & Hn & Hf & Hw). simpl in Hs, Hn, Hf, Hw. subst self0.
    destruct (Hnet (requests w0)) as (text & d & err & H1 & H2 & H3).
    rewrite <- Hn in H1.
    destruct (body_rejected save self w0 text d err Hdata H1 H2 H3)
      as (msg & Hbody).
    rewrite Hbody. split; [|exists msg; reflexivity].
    repeat split; assumption. }
  assert (Hafter : forall n, P (after (body save) n (self, w))).
  { intros n. apply (after_preserves (body save) P).
    - intros st Hst. apply (Hstep st Hst).
    - repeat split; reflexivity. }
  destruct (run_last_attempt save (self, w) sch)
    as (j & Hj & Hres & Hst & Hsch & _ & Hok).
  unfold state in *.
  assert (j = 6%nat) as ->.
  { destruct (Nat.eq_dec j 6%nat) as [|Hne]; [assumption|].
    destruct (Hstep _ (Hafter j)) as [_ [msg Hmsg]].
    rewrite Hmsg in Hok. specialize (Hok ltac:(lia)). discriminate. }
  destruct (Hstep _ (Hafter 6%nat)) as [(Hs & Hn & Hf & Hw) [msg Hmsg]].
  rewrite Hres, Hst, Hsch. cbn [attempt_number].
  split; [exists msg; exact Hmsg|].
  split.
  { pose proof (after_without_table json_loads float_utcfromtimestamp
                  frame_of_other to_csv_text save 7 (self, w)) as H7.
    rewrite after_last in H7.
    destruct H7 as (_ & Hreq & _);
      [exact (eq_trans (f_equal data Hs) Hdata)|exact Hreq]. }
  split; [reflexivity|].
  split; [exact Hf|]. split; [exact Hw|exact Hs].
Qed.

(** [run] changes nothing of the object but [data]. *)
Lemma run_frame (save : bool) (self : CryptoData) (w : world) (sch : scheduler) :
  fst (fst (snd (run' save ((self, w), sch))))
  = set_data self (data (fst (fst (snd (run' save ((self, w), sch)))))).
Proof.
  destruct (run_last_attempt save (self, w) sch) as (j & _ & _ & Hst & _).
  unfold state in *. rewrite Hst.
  assert (Hafter : exists d, fst (after (body save) j (self, w)) = set_data self d).
  { apply (after_preserves (body save) (fun st => exists d, fst st = set_data self d)).
    - intros st [d Hd]. destruct (body_frame save st) as [Hf _].
      eexists. etransitivity; [exact Hf|]. rewrite Hd. reflexivity.
    - exists (data self). destruct self; reflexivity. }
  destruct Hafter as [d Hd].
  destruct (body_frame save (after (body save) j (self, w))) as [Hf _].
  etransitivity; [exact Hf|]. rewrite Hd. reflexivity.
Qed.

(** The GETs of one [run] on an object without a table: one at least,
    seven at most. *)
Lemma run_requests (save : bool) (self : CryptoData) (w : world)
  (sch : scheduler) :
  data self = None ->
  (requests w < requests (snd (fst (snd (run' save ((self, w), sch))))) 
   <= requests w + 7)%nat.
Proof.
  intros Hdata.
  destruct (run_last_attempt save (self, w) sch) as (j & Hj & _ & Hst & _).
  unfold state in *. rewrite Hst, <- after_last.
  pose proof (after_requests json_loads float_utcfromtimestamp frame_of_other
                to_csv_text save (S j) (self, w)) as Hupper.
  pose proof (after_requests json_loads float_utcfromtimestamp frame_of_other
                to_csv_text save j (snd (body save (self, w)))) as Hlower.
  pose proof (body_requests json_loads float_utcfromtimestamp frame_of_other
                to_csv_text save self w) as Hfirst.
  rewrite Hdata in Hfirst. unfold state in *.
  simpl in Hupper, Hlower |- *. lia.
Qed.

Lemma run_keeps_fields (save : bool) (self : CryptoData) (w : world)
  (sch : scheduler) :
  let self' := fst (fst (snd (run' save ((self, w), sch)))) in
  destination self' = destination self
  /\ period self' = period self
  /\ url self' = url self
  /\ start_timestamp self' = start_timestamp self
  /\ end_timestamp self' = end_timestamp self.
Proof.
  intros self'. subst self'.
  pose proof (run_frame save self w sch) as H.
  repeat split.
  - exact (f_equal destination H).
  - exact (f_equal period H).
  - exact (f_equal url H).
  - exact (f_equal start_timestamp H).
  - exact (f_equal end_timestamp H).
Qed.

End MoreRun.

Lemma run_without_save_witness :
  run Sample.json_loads Sample.float_utcfromtimestamp Sample.frame_of_other
    Sample.to_csv_text false
    ((Sample.client_with_table, Sample.flaky_disk), Sample.scheduler0)
  = (Ok (RetData (Some Sample.table)),
     ((Sample.client_with_table, Sample.flaky_disk),
      mk_scheduler (rng Sample.scheduler0) 0 [] 1)).
Proof.
  apply (run_without_save Sample.json_loads Sample.float_utcfromtimestamp
           Sample.frame_of_other Sample.to_csv_text Sample.client_with_table
           Sample.flaky_disk Sample.scheduler0).
  reflexivity.
Defined.

Lemma run_saves_the_table_witness :
  let result :=
    run Sample.json_loads Sample.float_utcfromtimestamp Sample.frame_of_other
      Sample.to_csv_text true
      ((Sample.client (Some Sample.path), Sample.flaky_disk),
       Sample.scheduler0) in
  exists df, data (fst (fst (snd result))) = Some df
             /\ files (snd (fst (snd result))) !! Sample.path
                = Some (Sample.to_csv_text df).
Proof.
  apply (run_saves_the_table Sample.json_loads Sample.float_utcfromtimestamp
           Sample.frame_of_other Sample.to_csv_text
           (Sample.client (Some Sample.path)) Sample.flaky_disk
           Sample.scheduler0 Sample.path eq_refl RetSelf).
  vm_compute. reflexivity.
Defined.

Lemma run_sleep_budget_witness :
  let result :=
    run Sample.json_loads Sample.float_utcfromtimestamp Sample.frame_of_other
      Sample.to_csv_text true
      ((Sample.client (Some Sample.path), Sample.dead_net), Sample.scheduler0) in
  Z.of_nat (attempt_number (snd (snd result))) = 7.
Proof.
  apply (run_sleep_budget Sample.json_loads Sample.float_utcfromtimestamp
           Sample.frame_of_other Sample.to_csv_text true
           (Sample.client (Some Sample.path)) Sample.dead_net
           Sample.scheduler0).
  eexists. vm_compute. reflexivity.
Defined.

Lemma run_retries_api_errors_witness :
  let result :=
    run Sample.json_loads Sample.float_utcfromtimestamp Sample.frame_of_other
      Sample.to_csv_text true
      ((Sample.client (Some Sample.path), Scenario.rejecting_net),
       Sample.scheduler0) in
  requests (snd (fst (snd result))) = 7%nat
  /\ files (snd (fst (snd result))) = ∅.
Proof.
  destruct (run_retries_api_errors Sample.json_loads
              Sample.float_utcfromtimestamp Sample.frame_of_other
              Sample.to_csv_text true (Sample.client (Some Sample.path))
              Scenario.rejecting_net Sample.scheduler0 eq_refl)
    as (_ & Hreq & _ & Hfiles & _).
  - intros n. exists Sample.invalid_pair_body,
      [("error"%string, PyStr "Invalid currency pair.")],
      (PyStr "Invalid currency pair.").
    repeat split; reflexivity.
  - split; [exact Hreq|exact Hfiles].
Defined.

(** ** The script *)

Section MoreMain.

Variable json_loads : string -> except pyvalue.
Variable float_utcfromtimestamp : pyfloat -> except datetime.
Variable frame_of_other : pyvalue -> except DataFrame.
Variable to_csv_text : DataFrame -> string.

Local Abbreviation main' :=
  (main json_loads float_utcfromtimestamp frame_of_other to_csv_text).
Local Abbreviation run' :=
  (run json_loads float_utcfromtimestamp frame_of_other to_csv_text).

Lemma main_cases (mc : machine) (home_dir : string) (args : cli_args)
  (w : world) (sch : scheduler) :
  match init_of mc home_dir args with
  | Raise e =>
      client (main' mc home_dir args w sch) = None
      /\ ended (main' mc home_dir args w sch) = Raise e
      /\ world_after (main' mc home_dir args w sch) = w
      /\ scheduler_after (main' mc home_dir args w sch) = sch
  | Ok new =>
      client (main' mc home_dir args w sch)
      = Some (fst (fst (snd (run' true ((new, w), sch)))))
      /\ ended (main' mc home_dir args w sch)
         = fst (run' true ((new, w), sch))
      /\ world_after (main' mc home_dir args w sch)
         = snd (fst (snd (run' true ((new, w), sch))))
      /\ scheduler_after (main' mc home_dir args w sch)
         = snd (snd (run' true ((new, w), sch)))
  end.
Proof.
  unfold main, init_of.
  destruct (__init__ mc _) as [new|e]; [|repeat split].
  destruct (run' true ((new, w), sch)) as [r [[self w'] sch']].
  repeat split.
Qed.

(** X11: without [--dest] the file is named after the pair as it was
    typed and the period that was asked for, while the request is made
    for the upper-cased pair and always for period 300: the name of the
    file does not tell which candles are in it. *)
Theorem main_default_destination (mc : machine) (home_dir : string)
  (args : cli_args) (w : world) (sch : scheduler) (self : CryptoData) :
  cli_dest args = None ->
  client (main' mc home_dir args w sch) = Some self ->
  destination self
  = Some (home_dir +:+ "/" +:+ cli_currency_pair args +:+ "_"
          +:+ str_of_int (cli_period args) +:+ ".csv")
  /\ period self = 300
  /\ url self
     = "https://poloniex.com/public?command=returnChartData&currencyPair="
       +:+ upper (cli_currency_pair args)
       +:+ "&start=" +:+ str_of_int (start_timestamp self)
       +:+ "&end=" +:+ str_of_int (end_timestamp self) +:+ "&period=300".
Proof.
  intros Hdest Hclient.
  pose proof (main_cases mc home_dir args w sch) as H.
  unfold init_of in H.
  destruct (__init__ mc _) as [new|e] eqn:Hinit;
    [|destruct H as [H _]; congruence].
  destruct H as [H _]. rewrite H in Hclient. injection Hclient as Hself.
  destruct (run_keeps_fields json_loads float_utcfromtimestamp frame_of_other
              to_csv_text true new w sch) as (Kd & Kp & Ku & Ks & Ke).
  pose proof (eq_trans (eq_sym (f_equal destination Hself)) Kd) as Kd'.
  pose proof (eq_trans (eq_sym (f_equal period Hself)) Kp) as Kp'.
  pose proof (eq_trans (eq_sym (f_equal url Hself)) Ku) as Ku'.
  pose proof (eq_trans (eq_sym (f_equal start_timestamp Hself)) Ks) as Ks'.
  pose proof (eq_trans (eq_sym (f_equal end_timestamp Hself)) Ke) as Ke'.
  clear Kd Kp Ku Ks Ke Hself H.
  destruct (construct_fields _ _ _ Hinit) as (Hc & _ & Hp & Ha & Hd & _ & Hu).
  simpl in Hc, Ha, Hd. unfold DESTINATION in Hd. rewrite Hdest in Hd.
  rewrite Kd', Kp', Ku', Ks', Ke', Hu, Hp, Ha, Hc, Hd.
  repeat split; reflexivity.
Qed.

(** X12: [--pairs] prints the table and then the script goes on as
    without it: same object, same end, same requests and files.  Whenever
    the dates parse, the script asks the server at least once and at most
    seven times. *)
Theorem main_with_pairs (mc : machine) (home_dir : string) (args : cli_args)
  (w : world) (sch : scheduler) :
  let pairs_on :=
    mk_cli (cli_currency_pair args) (cli_period args) (cli_dest args)
      (cli_start_date args) (cli_end_date args) true in
  let pairs_off :=
    mk_cli (cli_currency_pair args) (cli_period args) (cli_dest args)
      (cli_start_date args) (cli_end_date args) false in
  let shown := main' mc home_dir pairs_on w sch in
  let quiet := main' mc home_dir pairs_off w sch in
  printed shown = [join newline (pairs_table AVAILABLE_CURRENCY_PAIRS)]
  /\ printed quiet = []
  /\ client shown = client quiet
  /\ ended shown = ended quiet
  /\ world_after shown = world_after quiet
  /\ scheduler_after shown = scheduler_after quiet
  /\ (client shown <> None ->
      (requests w < requests (world_after shown) <= requests w + 7)%nat).
Proof.
  intros pairs_on pairs_off shown quiet.
  pose proof (main_cases mc home_dir pairs_on w sch) as Hon.
  pose proof (main_cases mc home_dir pairs_off w sch) as Hoff.
  fold shown in Hon. fold quiet in Hoff.
  change (init_of mc home_dir pairs_off) with (init_of mc home_dir pairs_on)
    in Hoff.
  assert (Hprinted : printed shown
                     = [join newline (pairs_table AVAILABLE_CURRENCY_PAIRS)]
                     /\ printed quiet = []).
  { subst shown quiet. unfold main, pairs_on, pairs_off. cbn [cli_pairs].
    destruct (__init__ mc _) as [new|e]; [|split; reflexivity].
    destruct (run' true ((new, w), sch)) as [r [[self w'] sch']].
    split; reflexivity. }
  destruct Hprinted as [Hp1 Hp2].
  split; [exact Hp1|]. split; [exact Hp2|].
  destruct (init_of mc home_dir pairs_on) as [new|e] eqn:Hinit.
  - destruct Hon as (H1 & H2 & H3 & H4), Hoff as (H1' & H2' & H3' & H4').
    repeat split; try congruence.
    + rewrite H3.
      apply (run_requests json_loads float_utcfromtimestamp frame_of_other
               to_csv_text true new w sch).
      apply (construct_fields _ _ _ Hinit).
    + rewrite H3.
      apply (run_requests json_loads float_utcfromtimestamp frame_of_other
               to_csv_text true new w sch).
      apply (construct_fields _ _ _ Hinit).
  - destruct Hon as (H1 & H2 & H3 & H4), Hoff as (H1' & H2' & H3' & H4').
    repeat split; try congruence.
Qed.

(** X13: the dates are checked before anything else is done.  With a
    start date that [strptime] refuses the script ends with that
    [ValueError]: it has made no request, slept no time and touched no
    file. *)
Theorem main_rejects_bad_date (mc : machine) (home_dir : string)
  (args : cli_args) (w : world) (sch : scheduler) (e : exn) :
  strptime_ymd (cli_start_date args) = Raise e ->
  client (main' mc home_dir args w sch) = None
  /\ ended (main' mc home_dir args w sch) = Raise e
  /\ world_after (main' mc home_dir args w sch) = w
  /\ scheduler_after (main' mc home_dir args w sch) = sch.
Proof.
  intros Hbad.
  pose proof (main_cases mc home_dir args w sch) as H.
  unfold init_of, __init__, get_timestamp in H. cbn [arg_start_date] in H.
  rewrite Hbad in H. exact H.
Qed.

(** X14: when the script ends without an exception, the file at
    [DESTINATION] holds the CSV text of the table of [client]. *)
Theorem main_writes_the_file (mc : machine) (home_dir : string)
  (args : cli_args) (w : world) (sch : scheduler) (v : run_value) :
  ended (main' mc home_dir args w sch) = Ok v ->
  exists self p df,
    client (main' mc home_dir args w sch) = Some self
    /\ DESTINATION home_dir args = Some p
    /\ destination self = Some p
    /\ data self = Some df
    /\ files (world_after (main' mc home_dir args w sch)) !! p
       = Some (to_csv_text df).
Proof.
  intros Hend.
  pose proof (main_cases mc home_dir args w sch) as H.
  unfold init_of in H.
  destruct (__init__ mc _) as [new|e] eqn:Hinit;
    [|destruct H as (_ & H & _); congruence].
  destruct H as (Hc & He & Hw & _).
  destruct (construct_fields _ _ _ Hinit) as (_ & _ & _ & _ & Hd & _).
  cbn [arg_destination] in Hd.
  assert (Hsome : exists p, DESTINATION home_dir args = Some p).
  { unfold DESTINATION. destruct (cli_dest args); eexists; reflexivity. }
  destruct Hsome as [p Hp]. rewrite Hp in Hd.
  rewrite He in Hend.
  destruct (run_saved_file json_loads float_utcfromtimestamp
              frame_of_other to_csv_text new w sch p v Hd Hend)
    as (_ & df & Hdata & Hfile).
  eexists _, p, df. split; [exact Hc|]. split; [exact Hp|].
  split; [|split; [exact Hdata|rewrite Hw; exact Hfile]].
  destruct (run_keeps_fields json_loads float_utcfromtimestamp frame_of_other
              to_csv_text true new w sch) as (Kd & _).
  exact (eq_trans Kd Hd).
Qed.

End MoreMain.
Lemma main_default_destination_witness :
  exists self,
    client (main Sample.json_loads Sample.float_utcfromtimestamp
              Sample.frame_of_other Sample.to_csv_text Sample.utc
              Scenario.home_dir Scenario.daily Sample.flaky_disk
              Sample.scheduler0) = Some self
    /\ destination self = Some "/home/user/usdt_ltc_86400.csv"%string
    /\ period self = 300.
Proof.
  eexists. split; [vm_compute; reflexivity|].
  destruct (main_default_destination Sample.json_loads
              Sample.float_utcfromtimestamp Sample.frame_of_other
              Sample.to_csv_text Sample.utc Scenario.home_dir Scenario.daily
              Sample.flaky_disk Sample.scheduler0 _ eq_refl
              ltac:(vm_compute; reflexivity)) as (Hd & Hp & _).
  split; [exact Hd|exact Hp].
Defined.

Lemma main_with_pairs_witness :
  requests
    (world_after
       (main Sample.json_loads Sample.float_utcfromtimestamp
          Sample.frame_of_other Sample.to_csv_text Sample.utc
          Scenario.home_dir Scenario.daily Sample.flaky_disk
          Sample.scheduler0)) = 1%nat
  /\ (0 < 1 <= 0 + 7)%nat.
Proof.
  split; [vm_compute; reflexivity|].
  destruct (main_with_pairs Sample.json_loads Sample.float_utcfromtimestamp
              Sample.frame_of_other Sample.to_csv_text Sample.utc
              Scenario.home_dir Scenario.daily Sample.flaky_disk
              Sample.scheduler0) as (_ & _ & _ & _ & _ & _ & H).
  lia.
Defined.

Lemma main_rejects_bad_date_witness :
  ended (main Sample.json_loads Sample.float_utcfromtimestamp
           Sample.frame_of_other Sample.to_csv_text Sample.utc
           Scenario.home_dir Scenario.bad_date Sample.flaky_disk
           Sample.scheduler0)
  = Raise (ValueError "time data does not match format")
  /\ world_after
       (main Sample.json_loads Sample.float_utcfromtimestamp
          Sample.frame_of_other Sample.to_csv_text Sample.utc
          Scenario.home_dir Scenario.bad_date Sample.flaky_disk
          Sample.scheduler0) = Sample.flaky_disk.
Proof.
  destruct (main_rejects_bad_date Sample.json_loads
              Sample.float_utcfromtimestamp Sample.frame_of_other
              Sample.to_csv_text Sample.utc Scenario.home_dir
              Scenario.bad_date Sample.flaky_disk Sample.scheduler0 _
              eq_refl) as (_ & He & Hw & _).
  split; [exact He|exact Hw].
Defined.

Lemma main_writes_the_file_witness :
  exists self p df,
    client (main Sample.json_loads Sample.float_utcfromtimestamp
              Sample.frame_of_other Sample.to_csv_text Sample.utc
              Scenario.home_dir Scenario.daily Sample.flaky_disk
              Sample.scheduler0) = Some self
    /\ DESTINATION Scenario.home_dir Scenario.daily = Some p
    /\ destination self = Some p
    /\ data self = Some df
    /\ files (world_after
                (main Sample.json_loads Sample.float_utcfromtimestamp
                   Sample.frame_of_other Sample.to_csv_text Sample.utc
                   Scenario.home_dir Scenario.daily Sample.flaky_disk
                   Sample.scheduler0)) !! p
       = Some (Sample.to_csv_text df).
Proof.
  apply (main_writes_the_file Sample.json_loads Sample.float_utcfromtimestamp
           Sample.frame_of_other Sample.to_csv_text Sample.utc
           Scenario.home_dir Scenario.daily Sample.flaky_disk
           Sample.scheduler0 RetSelf).
  vm_compute. reflexivity.
Defined.

(** ** The table of [--pairs] *)

Lemma length_append (a b : string) :
  String.length (a +:+ b) = (String.length a + String.length b)%nat.
Proof. induction a as [|c a IH]; simpl; [reflexivity|]. f_equal. exact IH. Qed.

Lemma append_assoc (a b c : string) : (a +:+ b) +:+ c = a +:+ (b +:+ c).
Proof.
  induction a as [|x a IH]; [reflexivity|].
  change (String x ((a +:+ b) +:+ c) = String x (a +:+ (b +:+ c))).
  rewrite IH. reflexivity.
Qed.

Lemma length_spaces (n : nat) : String.length (spaces n) = n.
Proof. induction n as [|n IH]; simpl; [reflexivity|]. rewrite IH. reflexivity. Qed.

Lemma length_ljust (w : nat) (s : string) :
  (String.length s <= w)%nat -> String.length (ljust w s) = w.
Proof.
  intros H. unfold ljust. rewrite length_append, length_spaces. lia.
Qed.

Lemma is_prefix_append (a b : string) : is_prefix a (a +:+ b) = true.
Proof.
  induction a as [|c a IH]; simpl; [reflexivity|].
  rewrite Ascii.eqb_refl, IH. reflexivity.
Qed.

Lemma occurs_in_prefix (a b : string) : occurs_in a (a +:+ b) = true.
Proof.
  destruct a as [|c a]; simpl.
  - destruct b; reflexivity.
  - rewrite Ascii.eqb_refl, is_prefix_append. reflexivity.
Qed.

Lemma widest_ge (col : list string) (x : string) :
  In x col -> (String.length x <= widest col)%nat.
Proof.
  induction col as [|y col IH]; simpl; [tauto|].
  intros [->|H]; [lia|]. specialize (IH H). lia.
Qed.

(** A list of [3 * k] pairs is cut into [k] rows of three, in order. *)
Lemma chunks3_triples (k : nat) (l : list string) :
  length l = (3 * k)%nat ->
  length (chunks3 l) = k
  /\ Forall (fun row => length row = 3%nat) (chunks3 l)
  /\ concat (chunks3 l) = l.
Proof.
  revert l. induction k as [|k IH]; intros l Hl.
  - destruct l; [|discriminate]. repeat split. constructor.
  - destruct l as [|a [|b [|c rest]]]; simpl in Hl; try lia.
    destruct (IH rest ltac:(lia)) as (H1 & H2 & H3).
    change (chunks3 (a :: b :: c :: rest)) with ([a; b; c] :: chunks3 rest).
    simpl. rewrite H1, H3. repeat split. constructor; [reflexivity|exact H2].
Qed.

Lemma shortest_row (rows : list (list string)) :
  Forall (fun row => length row = 3%nat) rows ->
  fold_right (fun row n => Nat.min (length row) n) 3%nat rows = 3%nat.
Proof.
  induction 1 as [|row rows Hrow _ IH]; simpl; [reflexivity|].
  rewrite IH, Hrow. reflexivity.
Qed.

Lemma format_triple (w0 w1 w2 : nat) (a b c : string) :
  format_row [w0; w1; w2] [a; b; c]
  = ljust w0 a +:+ tab +:+ ljust w1 b +:+ tab +:+ ljust w2 c.
Proof. reflexivity. Qed.

(** X15: for a list of pairs whose number is a multiple of three, as
    the list of the script is, [--pairs] prints one line for every three
    pairs; all lines are equally long, so the columns line up, and every
    pair stands in the table unabridged.  No pair is empty, so that every
    column is at least one character wide, as [ljust] expects. *)
Theorem pairs_table_aligned (k : nat) (pairs : list string) :
  length pairs = (3 * S k)%nat ->
  Forall (fun p => p <> EmptyString) pairs ->
  length (pairs_table pairs) = S k
  /\ (exists n, Forall (fun line => String.length line = n) (pairs_table pairs))
  /\ Forall (fun p => Exists (fun line => occurs_in p line = true)
                        (pairs_table pairs)) pairs.
Proof.
  intros Hlen _. unfold pairs_table.
  destruct (chunks3_triples (S k) pairs Hlen) as (Hk & Hrows & Hconcat).
  set (rows := chunks3 pairs) in *.
  assert (Hzip : zip_rows rows
                 = [List.map (fun row => nth 0 row EmptyString) rows;
                    List.map (fun row => nth 1 row EmptyString) rows;
                    List.map (fun row => nth 2 row EmptyString) rows]).
  { unfold zip_rows. destruct rows as [|r rows']; [discriminate|].
    inversion Hrows as [|? ? Hr Hrows']; subst.
    rewrite Hr, (shortest_row rows' Hrows'). reflexivity. }
  rewrite Hzip. cbn [List.map].
  set (w0 := widest (List.map (fun row => nth 0 row EmptyString) rows)).
  set (w1 := widest (List.map (fun row => nth 1 row EmptyString) rows)).
  set (w2 := widest (List.map (fun row => nth 2 row EmptyString) rows)).
  assert (Hline : forall row, In row rows ->
            exists a b c,
              row = [a; b; c]
              /\ (String.length a <= w0 /\ String.length b <= w1
                  /\ String.length c <= w2)%nat).
  { intros row Hin.
    pose proof (proj1 (List.Forall_forall _ _) Hrows row Hin) as H3.
    destruct row as [|a [|b [|c [|]]]]; try discriminate.
    exists a, b, c. split; [reflexivity|].
    repeat split; apply widest_ge;
      apply in_map_iff; exists [a; b; c]; split; (reflexivity || exact Hin). }
  split; [rewrite length_map; exact Hk|]. split.
  - exists (w0 + 1 + (w1 + 1 + w2))%nat.
    apply List.Forall_forall. intros line Hin.
    apply in_map_iff in Hin. destruct Hin as (row & <- & Hin).
    destruct (Hline row Hin) as (a & b & c & -> & Ha & Hb & Hc).
    rewrite format_triple, !length_append, !length_ljust by assumption.
    change (String.length tab) with 1%nat. lia.
  - rewrite <- Hconcat.
    apply List.Forall_forall. intros p Hp.
    apply in_concat in Hp. destruct Hp as (row & Hin & Hp).
    apply List.Exists_exists. exists (format_row [w0; w1; w2] row).
    split; [apply in_map; exact Hin|].
    destruct (Hline row Hin) as (a & b & c & -> & _).
    rewrite format_triple. unfold ljust.
    destruct Hp as [<-|[<-|[<-|[]]]].
    + rewrite append_assoc. apply occurs_in_prefix.
    + do 2 apply occurs_in_app. rewrite append_assoc. apply occurs_in_prefix.
    + do 4 apply occurs_in_app. apply occurs_in_prefix.
Qed.

Lemma pairs_table_aligned_witness :
  length (pairs_table AVAILABLE_CURRENCY_PAIRS) = 33%nat
  /\ Forall (fun p => Exists (fun line => occurs_in p line = true)
                        (pairs_table AVAILABLE_CURRENCY_PAIRS))
       AVAILABLE_CURRENCY_PAIRS.
Proof.
  destruct (pairs_table_aligned 32 AVAILABLE_CURRENCY_PAIRS eq_refl)
    as (Hn & _ & Hall).
  - repeat (constructor; [discriminate|]). constructor.
  - split; [exact Hn|exact Hall].
Defined.

(** ** Dates in order *)

(** A year is 365 days long, or 366. *)
Lemma year_step (y : Z) :
  let days y := (y / 400) * 146097 + ((y - y / 400 * 400) * 365
                 + (y - y / 400 * 400) / 4 - (y - y / 400 * 400) / 100) in
  days y - days (y - 1)
  = 365 + (if Calendar.is_leap y then 1 else 0).
Proof.
  cbv zeta. unfold Calendar.is_leap.
  destruct (Z.eqb_spec (y mod 4) 0) as [H4|H4];
    destruct (Z.eqb_spec (y mod 100) 0) as [H100|H100];
    destruct (Z.eqb_spec (y mod 400) 0) as [H400|H400]; simpl.
  all: div_lia.
Qed.

Lemma month_start_next (k : Z) :
  month_start (k + 1) = month_start k + month_length k.
Proof.
  unfold month_start, month_length.
  assert (Hk : k = 12 * (k / 12) + k mod 12 /\ 0 <= k mod 12 <= 11)
    by div_lia.
  set (y := k / 12) in *. set (j := k mod 12) in *.
  assert (Hnext : (j <= 10 /\ (k + 1) / 12 = y /\ (k + 1) mod 12 = j + 1)
                  \/ (j = 11 /\ (k + 1) / 12 = y + 1 /\ (k + 1) mod 12 = 0))
    by div_lia.
  clearbody y j.
  destruct Hnext as [(Hj & -> & ->)|(Hj & -> & ->)].
  - assert (Hcases : j = 0 \/ j = 1 \/ j = 2 \/ j = 3 \/ j = 4 \/ j = 5
                     \/ j = 6 \/ j = 7 \/ j = 8 \/ j = 9 \/ j = 10) by lia.
    unfold Calendar.days_from_civil, Calendar.days_in_month.
    destruct Hcases as [->|[->|[->|[->|[->|[->|[->|[->|[->|[->| ->]]]]]]]]]];
      simpl.
    2: { pose proof (year_step y) as Hy. cbv zeta in Hy.
         destruct (Calendar.is_leap y); div_lia. }
    all: div_lia.
  - subst j. unfold Calendar.days_from_civil, Calendar.days_in_month. simpl.
    replace (y + 1 - 1) with y by lia. div_lia.
Qed.

Lemma month_length_pos (k : Z) : 28 <= month_length k.
Proof.
  unfold month_length, Calendar.days_in_month.
  destruct (_ =? 2); [destruct (Calendar.is_leap _); lia|].
  destruct (_ || _); lia.
Qed.

Lemma month_start_increasing (a b : Z) :
  a < b -> month_start a + month_length a <= month_start b.
Proof.
  intros H. replace b with (a + 1 + Z.of_nat (Z.to_nat (b - a - 1))) by lia.
  induction (Z.to_nat (b - a - 1)) as [|n IH].
  - replace (a + 1 + Z.of_nat 0) with (a + 1) by lia.
    rewrite month_start_next. lia.
  - replace (a + 1 + Z.of_nat (S n)) with (a + 1 + Z.of_nat n + 1) by lia.
    rewrite month_start_next.
    pose proof (month_length_pos (a + 1 + Z.of_nat n)). lia.
Qed.

Lemma days_from_civil_month (y m d : Z) :
  1 <= m <= 12 ->
  Calendar.days_from_civil y m d = month_start (12 * y + (m - 1)) + d - 1
  /\ Calendar.days_in_month y m = month_length (12 * y + (m - 1)).
Proof.
  intros Hm. unfold month_start, month_length.
  replace ((12 * y + (m - 1)) / 12) with y by div_lia.
  replace ((12 * y + (m - 1)) mod 12 + 1) with m by div_lia.
  split; [|reflexivity]. unfold Calendar.days_from_civil. lia.
Qed.

(** Of two real dates the later one has the larger day number. *)
Lemma days_from_civil_increasing (y m d y' m' d' : Z) :
  1 <= m <= 12 -> d <= Calendar.days_in_month y m ->
  1 <= m' <= 12 -> 1 <= d' ->
  date_lt (y, m, d) (y', m', d') ->
  Calendar.days_from_civil y m d < Calendar.days_from_civil y' m' d'.
Proof.
  intros Hm Hd Hm' Hd' Hlt.
  destruct (days_from_civil_month y m d Hm) as [-> Hlen].
  destruct (days_from_civil_month y' m' d' Hm') as [-> _].
  rewrite Hlen in Hd. unfold date_lt in Hlt.
  destruct (Z.eq_dec (12 * y + (m - 1)) (12 * y' + (m' - 1))) as [Heq|Hne].
  - rewrite Heq. lia.
  - pose proof (month_start_increasing (12 * y + (m - 1))
                  (12 * y' + (m' - 1)) ltac:(lia)).
    lia.
Qed.

(** Date to day number and back. *)
Lemma civil_from_days_of_date (y m d : Z) :
  1 <= m <= 12 -> 1 <= d <= Calendar.days_in_month y m ->
  Calendar.civil_from_days (Calendar.days_from_civil y m d) = (y, m, d).
Proof.
  intros Hm Hd.
  pose proof (civil_from_days_inverse (Calendar.days_from_civil y m d)) as Hinv.
  pose proof (civil_from_days_valid (Calendar.days_from_civil y m d)) as Hval.
  destruct (Calendar.civil_from_days _) as [[y' m'] d'].
  destruct Hval as [Hm' Hd'].
  assert (Hno1 : ~ date_lt (y, m, d) (y', m', d')).
  { intros Hlt.
    pose proof (days_from_civil_increasing y m d y' m' d' Hm (proj2 Hd) Hm'
                  (proj1 Hd') Hlt). lia. }
  assert (Hno2 : ~ date_lt (y', m', d') (y, m, d)).
  { intros Hlt.
    pose proof (days_from_civil_increasing y' m' d' y m d Hm' (proj2 Hd') Hm
                  (proj1 Hd) Hlt). lia. }
  unfold date_lt in Hno1, Hno2.
  assert (y' = y /\ m' = m /\ d' = d) as (-> & -> & ->) by lia.
  reflexivity.
Qed.

(** *** What [strptime] returns *)

Lemma digit_of_range (c : ascii) (n : Z) :
  digit_of c = Some n -> 0 <= n <= 9.
Proof.
  unfold digit_of.
  destruct (Z.leb_spec 48 (Z.of_nat (nat_of_ascii c)));
    destruct (Z.leb_spec (Z.of_nat (nat_of_ascii c)) 57); simpl;
    intros [=]; lia.
Qed.

Lemma in_range_range (c : ascii) (lo hi n : Z) :
  in_range c lo hi = Some n -> lo <= n <= hi.
Proof.
  unfold in_range. destruct (digit_of c) as [k|]; [|discriminate].
  destruct (Z.leb_spec lo k); destruct (Z.leb_spec k hi); simpl;
    intros [=]; lia.
Qed.

Lemma in_two_chars (s : list ascii) (p q : ascii -> option Z)
  (v : Z) (r : list ascii) :
  In (v, r) (two_chars s p q) ->
  exists a b x y, p a = Some x /\ q b = Some y /\ v = x * 10 + y.
Proof.
  unfold two_chars. destruct s as [|a [|b rest]]; try (intros []).
  destruct (p a) as [x|] eqn:Hp; [|intros []].
  destruct (q b) as [y|] eqn:Hq; [|intros []].
  intros [[= <- <-]|[]]. exists a, b, x, y. auto.
Qed.

Lemma in_one_char (s : list ascii) (p : ascii -> option Z)
  (v : Z) (r : list ascii) :
  In (v, r) (one_char s p) -> exists a, p a = Some v.
Proof.
  unfold one_char. destruct s as [|a rest]; [intros []|].
  destruct (p a) as [x|] eqn:Hp; [|intros []].
  intros [[= <- <-]|[]]. exists a. exact Hp.
Qed.

Ltac field_bounds :=
  repeat match goal with
  | H : In _ (_ ++ _) |- _ => apply in_app_or in H; destruct H as [H|H]
  | H : In _ (two_chars _ _ _) |- _ =>
      apply in_two_chars in H; destruct H as (? & ? & ? & ? & ? & ? & ->)
  | H : In _ (one_char _ _) |- _ => apply in_one_char in H; destruct H as [? ?]
  | H : in_range _ _ _ = Some _ |- _ => apply in_range_range in H
  | H : is_space _ = Some _ |- _ =>
      unfold is_space in H; destruct (Ascii.eqb _ _); inversion H; subst; clear H
  end; try lia.

Lemma month_field_range (s : list ascii) (m : Z) (r : list ascii) :
  In (m, r) (month_field s) -> 1 <= m <= 12.
Proof. unfold month_field. intros H. field_bounds. Qed.

Lemma day_field_range (s : list ascii) (d : Z) (r : list ascii) :
  In (d, r) (day_field s) -> 1 <= d <= 31.
Proof. unfold day_field. intros H. field_bounds. Qed.

Lemma year_field_range (s : list ascii) (y : Z) (r : list ascii) :
  year_field s = Some (y, r) -> 0 <= y <= 9999.
Proof.
  unfold year_field. destruct s as [|a [|b [|c [|d rest]]]]; try discriminate.
  destruct (digit_of a) eqn:Ha; [|discriminate].
  destruct (digit_of b) eqn:Hb; [|discriminate].
  destruct (digit_of c) eqn:Hc; [|discriminate].
  destruct (digit_of d) eqn:Hd; [|discriminate].
  intros [= <- <-].
  apply digit_of_range in Ha, Hb, Hc, Hd. lia.
Qed.

Lemma head_omap_Some {A B : Type} (f : A -> option B) (l : list A) (x : B) :
  head (omap f l) = Some x -> exists e, In e l /\ f e = Some x.
Proof.
  induction l as [|a l IH]; [discriminate|].
  change (omap f (a :: l))
    with (match f a with Some y => y :: omap f l | None => omap f l end).
  destruct (f a) as [y|] eqn:Hf.
  - intros [= ->]. exists a. split; [left; reflexivity|exact Hf].
  - intros H. destruct (IH H) as (e & He & Hfe).
    exists e. split; [right; exact He|exact Hfe].
Qed.

Lemma match_ymd_range (s : list ascii) (y m d : Z) (r : list ascii) :
  match_ymd s = Some (y, m, d, r) ->
  0 <= y <= 9999 /\ 1 <= m <= 12 /\ 1 <= d <= 31.
Proof.
  unfold match_ymd.
  destruct (year_field s) as [[y0 r0]|] eqn:Hy; [|discriminate].
  destruct (after_dash r0) as [r1|]; [|discriminate].
  apply year_field_range in Hy.
  intros H. apply head_omap_Some in H. destruct H as ([m0 r2] & Hin & H).
  apply month_field_range in Hin.
  destruct (after_dash r2) as [r3|]; [|discriminate].
  destruct (day_field r3) as [|[d0 r4] l] eqn:Hday; [discriminate|].
  injection H as <- <- <- <-.
  assert (Hd : In (d0, r4) (day_field r3)) by (rewrite Hday; left; reflexivity).
  apply day_field_range in Hd. lia.
Qed.

(** A parsed date is a real date at midnight, in the years 1 to 9999. *)
Lemma strptime_ymd_valid (s : string) (d : datetime) :
  strptime_ymd s = Ok d ->
  1 <= year d <= 9999 /\ 1 <= month d <= 12
  /\ 1 <= day d <= Calendar.days_in_month (year d) (month d)
  /\ hour d = 0 /\ minute d = 0 /\ second d = 0 /\ microsecond d = 0.
Proof.
  unfold strptime_ymd.
  destruct (match_ymd _) as [[[[y m] d0] [|c r]]|] eqn:Hm; try discriminate.
  apply match_ymd_range in Hm.
  destruct (Z.leb_spec 1 y); destruct (Z.leb_spec d0 (Calendar.days_in_month y m));
    simpl; try discriminate.
  intros [= <-]. simpl. lia.
Qed.

Lemma utc_datetime_of_date (d : datetime) :
  1 <= month d <= 12 ->
  1 <= day d <= Calendar.days_in_month (year d) (month d) ->
  hour d = 0 -> minute d = 0 -> second d = 0 -> microsecond d = 0 ->
  utc_datetime (timegm d) = d.
Proof.
  destruct d as [y m dd h mi sec us].
  cbn [year month day hour minute second microsecond].
  intros Hm Hd -> -> -> ->.
  unfold utc_datetime, timegm.
  cbn [year month day hour minute second microsecond].
  replace ((Calendar.days_from_civil y m dd * 86400 + 0 * 3600 + 0 * 60 + 0)
           / 86400) with (Calendar.days_from_civil y m dd) by div_lia.
  replace ((Calendar.days_from_civil y m dd * 86400 + 0 * 3600 + 0 * 60 + 0)
           mod 86400) with 0 by div_lia.
  rewrite (civil_from_days_of_date y m dd Hm Hd). reflexivity.
Qed.

(** X16: the timestamp of a date string, with the UTC offset that was
    taken off put back, is the midnight that starts that date:
    [utcfromtimestamp] gives back what [strptime] parsed.  On a machine
    that runs in UTC the offset is 0 and the timestamp itself is that
    midnight. *)
Theorem get_timestamp_round_trip (mc : machine) (s : string) (t : Z) :
  get_timestamp mc (Some s) = Ok t ->
  exists d,
    strptime_ymd s = Ok d
    /\ t = timegm d - utcoffset mc (timegm d)
    /\ utcfromtimestamp (t + utcoffset mc (timegm d)) = Ok d.
Proof.
  unfold get_timestamp.
  destruct (strptime_ymd s) as [d|e] eqn:Hs; simpl; [|discriminate].
  intros [= <-]. exists d. split; [reflexivity|]. split; [reflexivity|].
  destruct (strptime_ymd_valid s d Hs) as (Hy & Hm & Hd & Hh & Hmi & Hsec & Hus).
  unfold mktime.
  replace (timegm d - utcoffset mc (timegm d) + utcoffset mc (timegm d))
    with (timegm d) by lia.
  unfold utcfromtimestamp, representable.
  rewrite (utc_datetime_of_date d Hm Hd Hh Hmi Hsec Hus).
  replace (1 <=? year d) with true by (symmetry; apply Z.leb_le; lia).
  replace (year d <=? 9999) with true by (symmetry; apply Z.leb_le; lia).
  reflexivity.
Qed.

Lemma get_timestamp_round_trip_witness :
  get_timestamp Sample.utc_plus_1 (Some "2015-01-01"%string) = Ok 1420066800
  /\ utcfromtimestamp (1420066800 + 3600)
     = Ok (mk_datetime 2015 1 1 0 0 0 0).
Proof.
  split; [reflexivity|].
  destruct (get_timestamp_round_trip Sample.utc_plus_1 "2015-01-01"
              1420066800 eq_refl) as (d & Hd & _ & H).
  injection Hd as <-. exact H.
Defined.

(** X17: when the start date is before the end date, the request
    that [__init__] builds starts before it ends, in every time zone whose
    UTC offset changes by less than a day. *)
Theorem init_range_in_order (mc : machine) (a : init_args)
  (s e : string) (ds de : datetime) :
  (forall x y, utcoffset mc x - utcoffset mc y < 86400) ->
  arg_start_date a = Some s -> arg_end_date a = Some e ->
  strptime_ymd s = Ok ds -> strptime_ymd e = Ok de ->
  datetime_leb de ds = false ->
  exists self,
    __init__ mc a = Ok self
    /\ start_timestamp self < end_timestamp self.
Proof.
  intros Hzone Hs He Hds Hde Hlt.
  unfold __init__. rewrite Hs, He. unfold get_timestamp. rewrite Hds, Hde.
  assert (Hfalsy : falsy (Some e) = false).
  { destruct e; [discriminate Hde|reflexivity]. }
  rewrite Hfalsy. simpl. eexists. split; [reflexivity|]. simpl.
  destruct (strptime_ymd_valid s ds Hds) as (_ & Hm & Hd & Hh & Hmi & Hsec & Hus).
  destruct (strptime_ymd_valid e de Hde)
    as (_ & Hm' & Hd' & Hh' & Hmi' & Hsec' & Hus').
  assert (Hdate : date_lt (year ds, month ds, day ds)
                    (year de, month de, day de)).
  { unfold datetime_leb, datetime_key in Hlt. simpl in Hlt.
    rewrite Hh, Hmi, Hsec, Hus, Hh', Hmi', Hsec', Hus' in Hlt.
    unfold date_lt. simpl in Hlt. lia. }
  pose proof (days_from_civil_increasing _ _ _ _ _ _ Hm (proj2 Hd) Hm'
                (proj1 Hd') Hdate) as Hdays.
  unfold mktime, timegm. rewrite Hh, Hmi, Hsec, Hh', Hmi', Hsec'.
  pose proof (Hzone
    (Calendar.days_from_civil (year de) (month de) (day de) * 86400
     + 0 * 3600 + 0 * 60 + 0)
    (Calendar.days_from_civil (year ds) (month ds) (day ds) * 86400
     + 0 * 3600 + 0 * 60 + 0)).
  lia.
Qed.

Lemma init_range_in_order_witness :
  exists self,
    __init__ Sample.utc_plus_1
      (mk_args "USDT_BTC" (Some "2015-01-01"%string)
         (Some "2015-01-02"%string) 300 None "returnChartData") = Ok self
    /\ start_timestamp self < end_timestamp self.
Proof.
  apply (init_range_in_order Sample.utc_plus_1
           (mk_args "USDT_BTC" (Some "2015-01-01"%string)
              (Some "2015-01-02"%string) 300 None "returnChartData")
           "2015-01-01" "2015-01-02"
           (mk_datetime 2015 1 1 0 0 0 0) (mk_datetime 2015 1 2 0 0 0 0)).
  - intros x y. simpl. lia.
  - reflexivity.
  - reflexivity.
  - reflexivity.
  - reflexivity.
  - reflexivity.
Defined.

(** ** What [parse_api_data_text] lets through *)

(** X18: [parse_api_data_text] returns a value exactly when the body
    is JSON and is not an object with an "error" key, and then it returns
    what [json.loads] gave, unchanged: an object without that key, a
    number, a string and [null] pass as well as an array does. *)
Theorem parse_api_data_text_returns_iff
  (json_loads : string -> except pyvalue) (self : CryptoData)
  (resp : response) (v : pyvalue) :
  parse_api_data_text json_loads self resp = Ok v
  <-> json_loads (text resp) = Ok v
      /\ (forall d, v = PyDict d -> dict_get "error" d = None).
Proof.
  unfold parse_api_data_text.
  destruct (json_loads (text resp)) as [parsed|e]; simpl.
  - destruct parsed as [| | | | | |d];
      try (split; [intros [= <-]; split; [reflexivity|discriminate]
                  |intros [[= <-] _]; reflexivity]).
    destruct (dict_get "error" d) as [err|] eqn:Herr.
    + split.
      * destruct (eq_str err _); discriminate.
      * intros [[= <-] Hnone]. specialize (Hnone d eq_refl). congruence.
    + split.
      * intros [= <-]. split; [reflexivity|]. intros d' [= <-]. exact Herr.
      * intros [[= <-] _]. reflexivity.
  - split; [discriminate|]. intros [[=] _].
Qed.

Lemma parse_api_data_text_returns_iff_witness :
  parse_api_data_text
    (fun _ => Ok (PyDict [("message"%string, PyStr "maintenance")]))
    (Sample.client None) (mk_response "{}")
  = Ok (PyDict [("message"%string, PyStr "maintenance")]).
Proof.
  apply (proj2 (parse_api_data_text_returns_iff
                  (fun _ => Ok (PyDict [("message"%string,
                                         PyStr "maintenance")]))
                  (Sample.client None) (mk_response "{}")
                  (PyDict [("message"%string, PyStr "maintenance")]))).
  split; [reflexivity|]. intros d [= <-]. reflexivity.
Defined.
